(** * Verification of the [/deploy] handler of [main.py]

    The handler drives a hosting provider through a fixed sequence of
    calls: identity lookup, repository lookup or creation, upsert of
    [index.html], Pages enable and Pages fetch.  The provider is
    arbitrary: every statement below is quantified over its answers.  The
    handler is embedded in a state and exception monad that also records
    each outbound call together with the answer it received. *)

From Stdlib Require Import ZArith NArith List String Ascii Bool.
From Stdlib Require Import Floats DecimalString Sorted.
Import ListNotations.

Set Warnings "-register-all".

Local Open Scope Z_scope.

(* ================================================================== *)
(** * Python values *)
(* ================================================================== *)

Module Py.

(** A Python [str] is a sequence of Unicode code points. *)
Definition char := N.
Definition str := list char.

(** String literals of the source (all of them ASCII). *)
Definition lit (s : string) : str :=
  map N_of_ascii (list_ascii_of_string s).

(** [str.isspace] on one code point (CPython's [_PyUnicode_IsWhitespace]). *)
Definition isspace (c : char) : bool :=
  ((9 <=? c) && (c <=? 13) ||
   (28 <=? c) && (c <=? 32) ||
   (c =? 133) || (c =? 160) || (c =? 5760) ||
   (8192 <=? c) && (c <=? 8202) ||
   (c =? 8232) || (c =? 8233) || (c =? 8239) || (c =? 8287) ||
   (c =? 12288))%N.

Fixpoint lstrip (s : str) : str :=
  match s with
  | [] => []
  | c :: s' => if isspace c then lstrip s' else s
  end.

Definition rstrip (s : str) : str := rev (lstrip (rev s)).

(** [s.strip()]: leading and trailing whitespace removed. *)
Definition strip (s : str) : str := rstrip (lstrip s).

(** Truth value of a [str]: non-empty. *)
Definition truthy_str (s : str) : bool :=
  match s with [] => false | _ :: _ => true end.

(** [str(n)] for an [int]. *)
Definition str_of_int (z : Z) : str :=
  lit (NilZero.string_of_int (Z.to_int z)).

(** [x in (a, b, ...)] on integers. *)
Definition in_tuple (x : Z) (t : list Z) : bool := existsb (Z.eqb x) t.

(** [needle in hay] on strings, as a proposition. *)
Definition includes (needle hay : str) : Prop :=
  exists pre post, hay = pre ++ needle ++ post.

(** Values produced by [json.loads] and accepted by [json=]: [None],
    [bool], [int], [float], [str], [list] and [dict].  A [dict] keeps one
    binding per key; it is listed with the binding that counts first. *)
Inductive value : Type :=
| PNone
| PBool (b : bool)
| PInt (z : Z)
| PFloat (f : float)
| PStr (s : str)
| PList (l : list value)
| PDict (d : list (str * value)).

Definition str_eqb (a b : str) : bool :=
  if list_eq_dec N.eq_dec a b then true else false.

Fixpoint lookup (k : str) (d : list (str * value)) : option value :=
  match d with
  | [] => None
  | (k', v) :: d' => if str_eqb k k' then Some v else lookup k d'
  end.

(** [d.get(k)] on a dict: the value, or [None] when the key is absent. *)
Definition dict_get (d : list (str * value)) (k : str) : value :=
  match lookup k d with
  | Some v => v
  | None => PNone
  end.

(** Truth value of an object, as [not x] and [if x] test it. *)
Definition truthy (v : value) : bool :=
  match v with
  | PNone => false
  | PBool b => b
  | PInt z => negb (z =? 0)
  | PFloat f => negb (PrimFloat.eqb f PrimFloat.zero)
  | PStr s => truthy_str s
  | PList l => match l with [] => false | _ :: _ => true end
  | PDict d => match d with [] => false | _ :: _ => true end
  end.

End Py.

Import Py.

Notation "'$' s" := (lit s%string) (at level 1, s at level 0, format "'$' s").

(* ================================================================== *)
(** * Exceptions *)
(* ================================================================== *)

(** The exception classes the handler raises or names in an [except]
    clause.  [UnknownObjectException] is a subclass of [GithubException];
    both, [HTTPException] and the classes of [OtherException] are
    subclasses of [Exception].  [NonException] stands for the classes
    under [BaseException] only ([KeyboardInterrupt], [SystemExit],
    [asyncio.CancelledError]), which [except Exception] lets through.
    [text] is what [str(e)] renders: the provider's diagnostic text. *)
Inductive exn : Type :=
| HTTPException (status_code : Z) (detail : str)
| GithubException (status : Z) (text : str)
| UnknownObjectException (status : Z) (text : str)
| OtherException (class : str) (text : str)
| NonException (class : str) (text : str).

Definition isinstance_Exception (e : exn) : bool :=
  match e with
  | NonException _ _ => false
  | _ => true
  end.

Definition isinstance_GithubException (e : exn) : bool :=
  match e with
  | GithubException _ _ | UnknownObjectException _ _ => true
  | _ => false
  end.

Definition isinstance_UnknownObjectException (e : exn) : bool :=
  match e with
  | UnknownObjectException _ _ => true
  | _ => false
  end.

(** [e.status]; only the [GithubException] classes have the attribute. *)
Definition exn_status (e : exn) : option Z :=
  match e with
  | GithubException s _ | UnknownObjectException s _ => Some s
  | _ => None
  end.

(** [str(e)], as the f-strings interpolate it; an [HTTPException]
    renders as "STATUS: DETAIL". *)
Definition exn_str (e : exn) : str :=
  match e with
  | HTTPException s d => str_of_int s ++ $": " ++ d
  | GithubException _ t | UnknownObjectException _ t => t
  | OtherException _ t | NonException _ t => t
  end.

Inductive outcome (A : Type) : Type :=
| Return (a : A)
| Raise (e : exn).
Arguments Return {A} a.
Arguments Raise {A} e.

(* ================================================================== *)
(** * The provider and the record of calls *)
(* ================================================================== *)

Record DeployRequest : Type := {
  repoName : str;   (* repository name to create/update *)
  html : str        (* HTML content to push *)
}.

(** What [g.get_user()] returns: an [AuthenticatedUser] whose attributes
    are not loaded yet.  Nothing has been sent to the provider; the object
    only keeps the credential of the client that made it. *)
Record LazyUser : Type := { credential : str }.

(** The [AuthenticatedUser] once the provider has answered the identity
    request. *)
Record AuthenticatedUser : Type := { login : str }.
Record Repository : Type := { full_name : str }.
Record ContentFile : Type := { sha : str }.

(** What [repo.get_contents] returns: a file, or the listing of a
    directory. *)
Inductive contents : Type :=
| File (f : ContentFile)
| Listing (l : list ContentFile).

(** A [requests.Response]: [resp_json] is the outcome of [r.json()], the
    decoded body or the exception of the decoder. *)
Record Response : Type := {
  resp_status_code : Z;
  resp_text : str;
  resp_json : outcome value
}.

Definition dict := list (str * str).

(** The outbound calls, with their arguments.  [GetUser] is the identity
    request ([GET /user]) made with the credential. *)
Inductive call : Type :=
| GetUser (token : str)
| GetRepo (user : AuthenticatedUser) (name : str)
| CreateRepo (user : AuthenticatedUser) (name : str) (auto_init : bool)
| Sleep (secs : Z)
| GetContents (repo : Repository) (path ref : str)
| UpdateFile (repo : Repository) (path message content sha branch : str)
| CreateFile (repo : Repository) (path message content branch : str)
| RequestsPost (url : str) (headers : dict) (json : value)
| RequestsGet (url : str) (headers : dict).

(** What a call answered. *)
Inductive reply : Type :=
| RUser (u : AuthenticatedUser)
| RRepo (r : Repository)
| RContents (c : contents)
| RDone
| RResponse (r : Response)
| RRaised (e : exn).

Record event : Type := Ev { ev_call : call; ev_reply : reply }.

(** The recorded answer of a call that returned or raised. *)
Definition answer {A} (inj : A -> reply) (o : outcome A) : reply :=
  match o with
  | Return a => inj a
  | Raise e => RRaised e
  end.

(** A provider answers each call from its current state [W] and moves to
    a new state.  [Github_get_user] answers the identity request of the
    user object that [Github.get_user] made. *)
Class Provider (W : Type) : Type := {
  Github_get_user : str -> W -> outcome AuthenticatedUser * W;
  user_get_repo : AuthenticatedUser -> str -> W -> outcome Repository * W;
  user_create_repo :
    AuthenticatedUser -> str -> bool -> W -> outcome Repository * W;
  repo_get_contents : Repository -> str -> str -> W -> outcome contents * W;
  repo_update_file :
    Repository -> str -> str -> str -> str -> str -> W -> outcome unit * W;
  repo_create_file :
    Repository -> str -> str -> str -> str -> W -> outcome unit * W;
  requests_post : str -> dict -> value -> W -> outcome Response * W;
  requests_get : str -> dict -> W -> outcome Response * W
}.

(* ================================================================== *)
(** * The monad of the handler *)
(* ================================================================== *)

Module Eff.
Section Eff.
Context {W : Type}.

(** Provider state and the calls made so far, oldest first. *)
Definition st : Type := W * list event.

Definition M (A : Type) : Type := st -> outcome A * st.

Definition ret {A} (a : A) : M A := fun s => (Return a, s).

Definition raise {A} (e : exn) : M A := fun s => (Raise e, s).

Definition bind {A B} (m : M A) (k : A -> M B) : M B :=
  fun s =>
    match m s with
    | (Return a, s') => k a s'
    | (Raise e, s') => (Raise e, s')
    end.

(** A value or exception computed locally. *)
Definition lift {A} (o : outcome A) : M A := fun s => (o, s).

(** One outbound call: ask the provider, record call and answer. *)
Definition perform {A} (c : call) (inj : A -> reply)
    (f : W -> outcome A * W) : M A :=
  fun '(w, tr) =>
    let '(o, w') := f w in
    (o, (w', tr ++ [Ev c (answer inj o)])).

(** One [except C as e: ...] clause. *)
Record clause (A : Type) : Type := Except {
  catches : exn -> bool;
  handler : exn -> M A
}.
Arguments Except {A} catches handler.
Arguments catches {A} c e.
Arguments handler {A} c e.

(** The first clause whose class matches, as Python selects it. *)
Fixpoint select {A} (cs : list (clause A)) (e : exn) : option (M A) :=
  match cs with
  | [] => None
  | c :: cs' => if catches c e then Some (handler c e) else select cs' e
  end.

(** [try: body except ...]: an exception of the body goes to the first
    matching clause; an exception raised by a clause is not caught by its
    sibling clauses. *)
Definition try_except {A} (body : M A) (cs : list (clause A)) : M A :=
  fun s =>
    match body s with
    | (Return a, s') => (Return a, s')
    | (Raise e, s') =>
        match select cs e with
        | Some h => h s'
        | None => (Raise e, s')
        end
    end.

End Eff.

Arguments Except {W A} catches handler.
Arguments catches {W A} c e.
Arguments handler {W A} c e.

End Eff.

Import Eff.

Notation "x <- m ;; k" := (bind m (fun x => k))
  (at level 61, m at next level, right associativity).
Notation "m ;;; k" := (bind m (fun _ => k))
  (at level 61, right associativity).

(* ================================================================== *)
(** * main.py *)
(* ================================================================== *)

Section Main.
Context {W : Type} {P : Provider W}.

(** The credential read from the process environment at start-up. *)
Variable GITHUB_TOKEN : str.

(** [g.get_user()] is lazy: it builds the object and sends nothing, so
    the provider cannot refuse it. *)
Definition get_user (token : str) : @M W LazyUser :=
  ret {| credential := token |}.

(** [user.login]: the first read of an attribute sends the identity
    request and completes the object, or raises what the provider
    answers. *)
Definition complete (user : LazyUser) : M AuthenticatedUser :=
  perform (GetUser (credential user)) RUser
    (Github_get_user (credential user)).

Definition get_repo (user : AuthenticatedUser) (name : str) : M Repository :=
  perform (GetRepo user name) RRepo (user_get_repo user name).

Definition create_repo (user : AuthenticatedUser) (name : str)
    (auto_init : bool) : M Repository :=
  perform (CreateRepo user name auto_init) RRepo
    (user_create_repo user name auto_init).

(** [time.sleep]: recorded, answered by nobody. *)
Definition sleep (secs : Z) : M unit :=
  perform (Sleep secs) (fun _ => RDone) (fun w : W => (Return tt, w)).

Definition get_contents (repo : Repository) (path ref : str) : M contents :=
  perform (GetContents repo path ref) RContents
    (repo_get_contents repo path ref).

Definition update_file (repo : Repository)
    (path message content sha branch : str) : M unit :=
  perform (UpdateFile repo path message content sha branch) (fun _ => RDone)
    (repo_update_file repo path message content sha branch).

Definition create_file (repo : Repository)
    (path message content branch : str) : M unit :=
  perform (CreateFile repo path message content branch) (fun _ => RDone)
    (repo_create_file repo path message content branch).

Definition post (url : str) (headers : dict) (json : value) : M Response :=
  perform (RequestsPost url headers json) RResponse
    (requests_post url headers json).

Definition get (url : str) (headers : dict) : M Response :=
  perform (RequestsGet url headers) RResponse (requests_get url headers).

Definition AttributeError (t : string) : exn :=
  OtherException $"AttributeError" (lit t).

(** [existing.sha]: a directory listing has no such attribute. *)
Definition attr_sha (existing : contents) : outcome str :=
  match existing with
  | File f => Return (sha f)
  | Listing _ => Raise (AttributeError "'list' object has no attribute 'sha'")
  end.

(** [type(v).__name__]. *)
Definition type_name (v : value) : string :=
  match v with
  | PNone => "NoneType"
  | PBool _ => "bool"
  | PInt _ => "int"
  | PFloat _ => "float"
  | PStr _ => "str"
  | PList _ => "list"
  | PDict _ => "dict"
  end.

(** [info.json().get(k)]: only a dict has [get]. *)
Definition json_get (body : value) (k : str) : outcome value :=
  match body with
  | PDict d => Return (dict_get d k)
  | _ =>
      Raise (AttributeError
               ("'" ++ type_name body ++ "' object has no attribute 'get'"))
  end.

Definition deploy (req : DeployRequest) : M value :=
  let html := html req in
  if negb (truthy_str (strip html)) then
    raise (HTTPException 400 $"Empty HTML content provided")
  else
  (* Initialize GitHub client with token from environment *)
  user <- try_except (get_user GITHUB_TOKEN)
            [Except isinstance_Exception (fun _ =>
               raise (HTTPException 401 $"Invalid GitHub token"))] ;;
  (* username = user.login *)
  user <- complete user ;;
  let username := login user in
  let repo_name := repoName req in
  (* Get or create the repository *)
  repo <- try_except (get_repo user repo_name)
            [Except isinstance_GithubException (fun e =>
               match exn_status e with
               | Some status =>
                   if status =? 404 then create_repo user repo_name true
                   else raise (HTTPException 400
                                 ($"Repo access error: " ++ exn_str e))
               | None => raise (AttributeError "status")
               end)] ;;
  sleep 2 ;;;
  (* Push or update index.html *)
  try_except
    (existing <- get_contents repo $"index.html" $"main" ;;
     existing_sha <- lift (attr_sha existing) ;;
     update_file repo $"index.html" $"Update index.html" html
       existing_sha $"main")
    [Except isinstance_UnknownObjectException (fun _ =>
       create_file repo $"index.html" $"Add index.html" html $"main");
     Except isinstance_Exception (fun e =>
       raise (HTTPException 500
                ($"Failed to push index.html: " ++ exn_str e)))] ;;;
  (* Enable GitHub Pages *)
  let pages_api :=
    $"https://api.github.com/repos/" ++ username ++ $"/" ++ repo_name
      ++ $"/pages" in
  let headers :=
    [($"Authorization", $"Bearer " ++ GITHUB_TOKEN);
     ($"Accept", $"application/vnd.github+json")] in
  let payload :=
    PDict [($"source",
            PDict [($"branch", PStr $"main"); ($"path", PStr $"/")])] in
  resp <- post pages_api headers payload ;;
  if negb (in_tuple (resp_status_code resp) [201; 204]) then
    raise (HTTPException 500
             ($"Enabling Pages failed (" ++ str_of_int (resp_status_code resp)
                ++ $"): " ++ resp_text resp))
  else
  (* Fetch GitHub Pages URL *)
  info <- get pages_api headers ;;
  if negb (resp_status_code info =? 200) then
    raise (HTTPException 500
             ($"Fetching Pages info failed ("
                ++ str_of_int (resp_status_code info)
                ++ $"): " ++ resp_text info))
  else
  body <- lift (resp_json info) ;;
  html_url <- lift (json_get body $"html_url") ;;
  if negb (truthy html_url) then
    raise (HTTPException 500 $"No html_url in Pages response")
  else
  ret (PDict [($"url", html_url)]).

(** The steps of [deploy], named.  [deploy_steps] below shows that the
    handler is their sequence. *)
Definition authenticate : M AuthenticatedUser :=
  user <- try_except (get_user GITHUB_TOKEN)
            [Except isinstance_Exception (fun _ =>
               raise (HTTPException 401 $"Invalid GitHub token"))] ;;
  complete user.

Definition resolve (user : AuthenticatedUser) (repo_name : str)
    : M Repository :=
  try_except (get_repo user repo_name)
    [Except isinstance_GithubException (fun e =>
       match exn_status e with
       | Some status =>
           if status =? 404 then create_repo user repo_name true
           else raise (HTTPException 400
                         ($"Repo access error: " ++ exn_str e))
       | None => raise (AttributeError "status")
       end)].

Definition push (repo : Repository) (html : str) : M unit :=
  try_except
    (existing <- get_contents repo $"index.html" $"main" ;;
     existing_sha <- lift (attr_sha existing) ;;
     update_file repo $"index.html" $"Update index.html" html
       existing_sha $"main")
    [Except isinstance_UnknownObjectException (fun _ =>
       create_file repo $"index.html" $"Add index.html" html $"main");
     Except isinstance_Exception (fun e =>
       raise (HTTPException 500
                ($"Failed to push index.html: " ++ exn_str e)))].

Definition pages_api (username repo_name : str) : str :=
  $"https://api.github.com/repos/" ++ username ++ $"/" ++ repo_name
    ++ $"/pages".

Definition headers : dict :=
  [($"Authorization", $"Bearer " ++ GITHUB_TOKEN);
   ($"Accept", $"application/vnd.github+json")].

Definition payload : value :=
  PDict [($"source",
          PDict [($"branch", PStr $"main"); ($"path", PStr $"/")])].

(** What the handler makes of the fetched Pages configuration. *)
Definition read_html_url (info : Response) : outcome value :=
  match resp_json info with
  | Raise e => Raise e
  | Return body =>
      match json_get body $"html_url" with
      | Raise e => Raise e
      | Return html_url =>
          if negb (truthy html_url) then
            Raise (HTTPException 500 $"No html_url in Pages response")
          else Return (PDict [($"url", html_url)])
      end
  end.

Definition enable_failed (resp : Response) : exn :=
  HTTPException 500
    ($"Enabling Pages failed (" ++ str_of_int (resp_status_code resp)
       ++ $"): " ++ resp_text resp).

Definition fetch_failed (info : Response) : exn :=
  HTTPException 500
    ($"Fetching Pages info failed (" ++ str_of_int (resp_status_code info)
       ++ $"): " ++ resp_text info).

Definition pages (username repo_name : str) : M value :=
  resp <- post (pages_api username repo_name) headers payload ;;
  if negb (in_tuple (resp_status_code resp) [201; 204]) then
    raise (enable_failed resp)
  else
  info <- get (pages_api username repo_name) headers ;;
  if negb (resp_status_code info =? 200) then raise (fetch_failed info)
  else
  body <- lift (resp_json info) ;;
  html_url <- lift (json_get body $"html_url") ;;
  if negb (truthy html_url) then
    raise (HTTPException 500 $"No html_url in Pages response")
  else
  ret (PDict [($"url", html_url)]).

(** One request served from provider state [w]: what the handler returns
    or raises, and the calls it made, in order. *)
Definition serve (req : DeployRequest) (w : W) : outcome value * list event :=
  let '(o, (_, tr)) := deploy req (w, []) in (o, tr).

End Main.

(* ================================================================== *)
(** * A scripted provider *)
(* ================================================================== *)

(** A test double: each kind of call has one canned answer, whatever its
    arguments.  It instantiates the statements below at concrete runs. *)
Module Mock.

Record script : Type := {
  on_get_user : outcome AuthenticatedUser;
  on_get_repo : outcome Repository;
  on_create_repo : outcome Repository;
  on_get_contents : outcome contents;
  on_update_file : outcome unit;
  on_create_file : outcome unit;
  on_post : outcome Response;
  on_get : outcome Response
}.

#[global] Instance provider : Provider script := {|
  Github_get_user _ w := (on_get_user w, w);
  user_get_repo _ _ w := (on_get_repo w, w);
  user_create_repo _ _ _ w := (on_create_repo w, w);
  repo_get_contents _ _ _ w := (on_get_contents w, w);
  repo_update_file _ _ _ _ _ _ w := (on_update_file w, w);
  repo_create_file _ _ _ _ _ w := (on_create_file w, w);
  requests_post _ _ _ w := (on_post w, w);
  requests_get _ _ w := (on_get w, w)
|}.

Definition token : str := $"ghp_example".
Definition octocat : AuthenticatedUser := {| login := $"user" |}.
Definition demo_repo : Repository := {| full_name := $"user/demo-site" |}.
Definition old_index : ContentFile := {| sha := $"3b18e512dba79e4c" |}.

Definition not_found : exn := UnknownObjectException 404 $"Not Found".

Definition pages_created : Response := {|
  resp_status_code := 201;
  resp_text := $"{}";
  resp_json := Return (PDict [])
|}.

Definition pages_info : Response := {|
  resp_status_code := 200;
  resp_text := $"{'html_url': 'https://user.github.io/demo-site/'}";
  resp_json :=
    Return (PDict [($"html_url", PStr $"https://user.github.io/demo-site/")])
|}.

(** The repository does not exist yet; every call succeeds. *)
Definition fresh : script := {|
  on_get_user := Return octocat;
  on_get_repo := Raise not_found;
  on_create_repo := Return demo_repo;
  on_get_contents := Raise not_found;
  on_update_file := Return tt;
  on_create_file := Return tt;
  on_post := Return pages_created;
  on_get := Return pages_info
|}.

(** The repository and its [index.html] exist; every call succeeds. *)
Definition existing : script := {|
  on_get_user := Return octocat;
  on_get_repo := Return demo_repo;
  on_create_repo := Raise (GithubException 422 $"name already exists");
  on_get_contents := Return (File old_index);
  on_update_file := Return tt;
  on_create_file := Raise (GithubException 422 $"sha was not supplied");
  on_post := Return pages_created;
  on_get := Return pages_info
|}.

Definition demo : DeployRequest :=
  {| repoName := $"demo-site"; html := $"<h1>Hi</h1>" |}.


Definition bad_credentials : exn := GithubException 401 $"Bad credentials".
Definition forbidden : exn := GithubException 403 $"Forbidden".
Definition invalid : exn := GithubException 422 $"Invalid request".

Definition pages_conflict : Response := {|
  resp_status_code := 409;
  resp_text := $"{'message': 'GitHub Pages is already enabled.'}";
  resp_json :=
    Return (PDict [($"message", PStr $"GitHub Pages is already enabled.")])
|}.

Definition pages_building : Response := {|
  resp_status_code := 200;
  resp_text := $"{'status': 'building'}";
  resp_json := Return (PDict [($"status", PStr $"building")])
|}.

(** The provider refuses the credential. *)
Definition rejecting : script := {|
  on_get_user := Raise bad_credentials;
  on_get_repo := Raise bad_credentials;
  on_create_repo := Raise bad_credentials;
  on_get_contents := Raise bad_credentials;
  on_update_file := Raise bad_credentials;
  on_create_file := Raise bad_credentials;
  on_post := Return pages_conflict;
  on_get := Return pages_building
|}.

(** The repository lookup is refused with status 403. *)
Definition locked : script := {|
  on_get_user := Return octocat;
  on_get_repo := Raise forbidden;
  on_create_repo := Raise forbidden;
  on_get_contents := Raise forbidden;
  on_update_file := Raise forbidden;
  on_create_file := Raise forbidden;
  on_post := Return pages_conflict;
  on_get := Return pages_building
|}.

(** The repository exists without [index.html]; creating the file fails. *)
Definition read_only : script := {|
  on_get_user := Return octocat;
  on_get_repo := Return demo_repo;
  on_create_repo := Raise invalid;
  on_get_contents := Raise not_found;
  on_update_file := Raise invalid;
  on_create_file := Raise invalid;
  on_post := Return pages_created;
  on_get := Return pages_info
|}.

(** Pages is already enabled: the enable call answers 409. *)
Definition already_enabled : script := {|
  on_get_user := Return octocat;
  on_get_repo := Return demo_repo;
  on_create_repo := Raise invalid;
  on_get_contents := Return (File old_index);
  on_update_file := Return tt;
  on_create_file := Raise invalid;
  on_post := Return pages_conflict;
  on_get := Return pages_info
|}.

(** The Pages configuration comes back without [html_url]. *)
Definition building : script := {|
  on_get_user := Return octocat;
  on_get_repo := Return demo_repo;
  on_create_repo := Raise invalid;
  on_get_contents := Return (File old_index);
  on_update_file := Return tt;
  on_create_file := Raise invalid;
  on_post := Return pages_created;
  on_get := Return pages_building
|}.

Definition blank : DeployRequest :=
  {| repoName := $"demo-site"; html := [32; 10; 9; 160; 8195]%N |}.

Definition padded : DeployRequest :=
  {| repoName := $"demo-site"; html := $"  <h1>Hi</h1> " |}.

Definition nameless : DeployRequest :=
  {| repoName := []; html := $"<h1>Hi</h1>" |}.

End Mock.

(* ================================================================== *)
(** * Reading a record of calls *)
(* ================================================================== *)

Definition is_CreateRepo (c : call) : bool :=
  match c with CreateRepo _ _ _ => true | _ => false end.
Definition is_UpdateFile (c : call) : bool :=
  match c with UpdateFile _ _ _ _ _ _ => true | _ => false end.
Definition is_CreateFile (c : call) : bool :=
  match c with CreateFile _ _ _ _ _ => true | _ => false end.
Definition is_RequestsGet (c : call) : bool :=
  match c with RequestsGet _ _ => true | _ => false end.

(** How many recorded calls are of the given kind. *)
Definition count (kind : call -> bool) (tr : list event) : nat :=
  List.length (filter (fun ev => kind (ev_call ev)) tr).

(** The two lookups answer "absent" with a not-found signal: a
    [GithubException] of status 404 for the repository, an
    [UnknownObjectException] for the file. *)
Definition not_found_signal (ev : event) : bool :=
  match ev_call ev, ev_reply ev with
  | GetRepo _ _, RRaised e =>
      match exn_status e with Some s => s =? 404 | None => false end
  | GetContents _ _ _, RRaised e => isinstance_UnknownObjectException e
  | _, _ => false
  end.

(** A call failed: it raised, and not as a not-found signal. *)
Definition failed (ev : event) : bool :=
  match ev_reply ev with
  | RRaised _ => negb (not_found_signal ev)
  | _ => false
  end.

(** The happy path: the handler returns and no call failed. *)
Definition happy_path (o : outcome value) (tr : list event) : Prop :=
  (exists v, o = Return v) /\ forallb (fun ev => negb (failed ev)) tr = true.

(** The exceptions that FastAPI answers with the structured error body
    [{"detail": ...}]; any other exception leaves the handler as it is. *)
Definition structured (o : outcome value) : bool :=
  match o with
  | Raise (HTTPException _ _) => true
  | _ => false
  end.

(* ================================================================== *)
(** * The runs of the handler *)
(* ================================================================== *)

(** The records of calls a run can leave and the outcome that goes with
    each, step by step.  [deploy_runs] below proves that every run of
    [deploy], against any provider, is one of these. *)
Section Runs.
Variable GITHUB_TOKEN : str.

Inductive resolve_run (user : AuthenticatedUser) (name : str)
  : list event -> outcome Repository -> Prop :=
| resolve_found repo :
    resolve_run user name
      [Ev (GetRepo user name) (RRepo repo)]
      (Return repo)
| resolve_created e o :
    exn_status e = Some 404 ->
    resolve_run user name
      [Ev (GetRepo user name) (RRaised e);
       Ev (CreateRepo user name true) (answer RRepo o)]
      o
| resolve_refused e status :
    exn_status e = Some status ->
    status <> 404 ->
    resolve_run user name
      [Ev (GetRepo user name) (RRaised e)]
      (Raise (HTTPException 400 ($"Repo access error: " ++ exn_str e)))
| resolve_escaped e :
    isinstance_GithubException e = false ->
    resolve_run user name
      [Ev (GetRepo user name) (RRaised e)]
      (Raise e).

Definition push_failed (e : exn) : exn :=
  HTTPException 500 ($"Failed to push index.html: " ++ exn_str e).

Definition lookup_index (repo : Repository) : call :=
  GetContents repo $"index.html" $"main".

Definition update_index (repo : Repository) (html rev : str) : call :=
  UpdateFile repo $"index.html" $"Update index.html" html rev $"main".

Definition create_index (repo : Repository) (html : str) : call :=
  CreateFile repo $"index.html" $"Add index.html" html $"main".

Inductive push_run (repo : Repository) (html : str)
  : list event -> outcome unit -> Prop :=
| push_updated existing :
    push_run repo html
      [Ev (lookup_index repo) (RContents (File existing));
       Ev (update_index repo html (sha existing)) RDone]
      (Return tt)
| push_update_vanished existing e o :
    isinstance_UnknownObjectException e = true ->
    push_run repo html
      [Ev (lookup_index repo) (RContents (File existing));
       Ev (update_index repo html (sha existing)) (RRaised e);
       Ev (create_index repo html) (answer (fun _ => RDone) o)]
      o
| push_update_escaped existing e :
    isinstance_UnknownObjectException e = false ->
    isinstance_Exception e = false ->
    push_run repo html
      [Ev (lookup_index repo) (RContents (File existing));
       Ev (update_index repo html (sha existing)) (RRaised e)]
      (Raise e)
| push_update_failed existing e :
    isinstance_UnknownObjectException e = false ->
    isinstance_Exception e = true ->
    push_run repo html
      [Ev (lookup_index repo) (RContents (File existing));
       Ev (update_index repo html (sha existing)) (RRaised e)]
      (Raise (push_failed e))
| push_directory listing :
    push_run repo html
      [Ev (lookup_index repo) (RContents (Listing listing))]
      (Raise (push_failed
                (AttributeError "'list' object has no attribute 'sha'")))
| push_created e o :
    isinstance_UnknownObjectException e = true ->
    push_run repo html
      [Ev (lookup_index repo) (RRaised e);
       Ev (create_index repo html) (answer (fun _ => RDone) o)]
      o
| push_lookup_escaped e :
    isinstance_UnknownObjectException e = false ->
    isinstance_Exception e = false ->
    push_run repo html
      [Ev (lookup_index repo) (RRaised e)]
      (Raise e)
| push_lookup_failed e :
    isinstance_UnknownObjectException e = false ->
    isinstance_Exception e = true ->
    push_run repo html
      [Ev (lookup_index repo) (RRaised e)]
      (Raise (push_failed e)).

Definition enable_pages (username name : str) : call :=
  RequestsPost (pages_api username name) (headers GITHUB_TOKEN) payload.

Definition fetch_pages (username name : str) : call :=
  RequestsGet (pages_api username name) (headers GITHUB_TOKEN).

Inductive pages_run (username name : str)
  : list event -> outcome value -> Prop :=
| pages_enable_escaped e :
    pages_run username name
      [Ev (enable_pages username name) (RRaised e)]
      (Raise e)
| pages_enable_refused resp :
    in_tuple (resp_status_code resp) [201; 204] = false ->
    pages_run username name
      [Ev (enable_pages username name) (RResponse resp)]
      (Raise (enable_failed resp))
| pages_fetch_escaped resp e :
    in_tuple (resp_status_code resp) [201; 204] = true ->
    pages_run username name
      [Ev (enable_pages username name) (RResponse resp);
       Ev (fetch_pages username name) (RRaised e)]
      (Raise e)
| pages_fetch_refused resp info :
    in_tuple (resp_status_code resp) [201; 204] = true ->
    resp_status_code info <> 200 ->
    pages_run username name
      [Ev (enable_pages username name) (RResponse resp);
       Ev (fetch_pages username name) (RResponse info)]
      (Raise (fetch_failed info))
| pages_fetched resp info :
    in_tuple (resp_status_code resp) [201; 204] = true ->
    resp_status_code info = 200 ->
    pages_run username name
      [Ev (enable_pages username name) (RResponse resp);
       Ev (fetch_pages username name) (RResponse info)]
      (read_html_url info).

Inductive deploy_run (req : DeployRequest)
  : list event -> outcome value -> Prop :=
| run_blank :
    strip (html req) = [] ->
    deploy_run req []
      (Raise (HTTPException 400 $"Empty HTML content provided"))
| run_unauthenticated e :
    strip (html req) <> [] ->
    deploy_run req
      [Ev (GetUser GITHUB_TOKEN) (RRaised e)]
      (Raise e)
| run_unresolved user looked e :
    strip (html req) <> [] ->
    resolve_run user (repoName req) looked (Raise e) ->
    deploy_run req
      (Ev (GetUser GITHUB_TOKEN) (RUser user) :: looked)
      (Raise e)
| run_unpushed user looked repo pushed e :
    strip (html req) <> [] ->
    resolve_run user (repoName req) looked (Return repo) ->
    push_run repo (html req) pushed (Raise e) ->
    deploy_run req
      (Ev (GetUser GITHUB_TOKEN) (RUser user)
         :: looked ++ Ev (Sleep 2) RDone :: pushed)
      (Raise e)
| run_pushed user looked repo pushed published o :
    strip (html req) <> [] ->
    resolve_run user (repoName req) looked (Return repo) ->
    push_run repo (html req) pushed (Return tt) ->
    pages_run (login user) (repoName req) published o ->
    deploy_run req
      (Ev (GetUser GITHUB_TOKEN) (RUser user)
         :: looked ++ Ev (Sleep 2) RDone :: pushed ++ published)
      o.

End Runs.

(* ================================================================== *)
(** * Start-up and the order of the steps *)
(* ================================================================== *)

(** [os.environ], as the module reads it when it is loaded. *)
Definition environ : Type := str -> option str.

Definition RuntimeError (t : string) : exn :=
  OtherException $"RuntimeError" (lit t).

(** Truth value of what [os.environ.get] returns: [None] and the empty
    string are false. *)
Definition truthy_opt (v : option str) : bool :=
  match v with
  | None => false
  | Some s => truthy_str s
  end.

(** The module-level read of the credential: the value bound to
    [GITHUB_TOKEN], or the [RuntimeError] that stops the start-up. *)
Definition load_GITHUB_TOKEN (env : environ) : outcome (option str) :=
  let GITHUB_TOKEN := env $"GITHUB_TOKEN" in
  if negb (truthy_opt GITHUB_TOKEN) then
    Raise (RuntimeError "Missing GITHUB_TOKEN environment variable. Please add it to your .env or Render environment.")
  else Return GITHUB_TOKEN.

(** The place of each call in the text of [deploy]. *)
Definition step (c : call) : nat :=
  match c with
  | GetUser _ => 0
  | GetRepo _ _ => 1
  | CreateRepo _ _ _ => 2
  | Sleep _ => 3
  | GetContents _ _ _ => 4
  | UpdateFile _ _ _ _ _ _ => 5
  | CreateFile _ _ _ _ _ => 6
  | RequestsPost _ _ _ => 7
  | RequestsGet _ _ => 8
  end%nat.

(** More scripted providers. *)
Module Cases.

Definition with_files (looked : outcome contents) (updated created : outcome unit)
    (s : Mock.script) : Mock.script := {|
  Mock.on_get_user := Mock.on_get_user s;
  Mock.on_get_repo := Mock.on_get_repo s;
  Mock.on_create_repo := Mock.on_create_repo s;
  Mock.on_get_contents := looked;
  Mock.on_update_file := updated;
  Mock.on_create_file := created;
  Mock.on_post := Mock.on_post s;
  Mock.on_get := Mock.on_get s
|}.

Definition with_fetch (fetched : outcome Response) (s : Mock.script)
    : Mock.script := {|
  Mock.on_get_user := Mock.on_get_user s;
  Mock.on_get_repo := Mock.on_get_repo s;
  Mock.on_create_repo := Mock.on_create_repo s;
  Mock.on_get_contents := Mock.on_get_contents s;
  Mock.on_update_file := Mock.on_update_file s;
  Mock.on_create_file := Mock.on_create_file s;
  Mock.on_post := Mock.on_post s;
  Mock.on_get := fetched
|}.

(** [index.html] is deleted between the lookup and the update. *)
Definition vanishing : Mock.script :=
  with_files (Return (File Mock.old_index)) (Raise Mock.not_found)
    (Return tt) Mock.existing.

Definition pages_missing : Response := {|
  resp_status_code := 404;
  resp_text := $"{'message': 'Not Found'}";
  resp_json := Return (PDict [($"message", PStr $"Not Found")])
|}.

Definition pages_unbuilt : Response := {|
  resp_status_code := 200;
  resp_text := $"{'html_url': ''}";
  resp_json := Return (PDict [($"html_url", PStr [])])
|}.

Definition decode_error : exn :=
  OtherException $"JSONDecodeError" $"Expecting value: line 1 column 1 (char 0)".

Definition pages_garbled : Response := {|
  resp_status_code := 200;
  resp_text := $"<html>Bad gateway</html>";
  resp_json := Raise decode_error
|}.

Definition pages_listing : Response := {|
  resp_status_code := 200;
  resp_text := $"[]";
  resp_json := Return (PList [])
|}.

(** The Pages configuration cannot be fetched: the GET answers 404. *)
Definition unfetchable : Mock.script :=
  with_fetch (Return pages_missing) Mock.existing.

(** The Pages configuration has an empty [html_url]. *)
Definition unbuilt : Mock.script :=
  with_fetch (Return pages_unbuilt) Mock.existing.

(** The body of the GET is not JSON. *)
Definition garbled : Mock.script :=
  with_fetch (Return pages_garbled) Mock.existing.

(** The body of the GET is a JSON array. *)
Definition listing : Mock.script :=
  with_fetch (Return pages_listing) Mock.existing.

Definition no_token : environ := fun _ => None.

Definition empty_token : environ :=
  fun k => if str_eqb k $"GITHUB_TOKEN" then Some [] else None.

Definition blank_token : environ :=
  fun k => if str_eqb k $"GITHUB_TOKEN" then Some $"  " else None.

End Cases.

(* ================================================================== *)
(** * Properties *)
(* ================================================================== *)

(** ** Strings *)

Lemma lstrip_blank (s : str) :
  Forall (fun c => isspace c = true) s -> lstrip s = [].
Proof.
  induction 1 as [|c s Hc _ IH]; simpl; [reflexivity|].
  rewrite Hc. exact IH.
Qed.

Lemma strip_blank (s : str) :
  Forall (fun c => isspace c = true) s -> strip s = [].
Proof.
  intros H. unfold strip, rstrip. rewrite (lstrip_blank s H). reflexivity.
Qed.

Lemma includes_mid (pre needle post : str) :
  includes needle (pre ++ needle ++ post).
Proof. exists pre, post. reflexivity. Qed.

Lemma includes_end (pre needle : str) : includes needle (pre ++ needle).
Proof. exists pre, []. rewrite app_nil_r. reflexivity. Qed.

Lemma in_tuple_In (x : Z) (t : list Z) : in_tuple x t = true <-> In x t.
Proof.
  unfold in_tuple. rewrite existsb_exists. split.
  - intros [y [Hy E]]. apply Z.eqb_eq in E. subst. exact Hy.
  - intros H. exists x. split; [exact H | apply Z.eqb_refl].
Qed.

Lemma truthy_str_strip (s : str) :
  negb (truthy_str (strip s)) = false <-> strip s <> [].
Proof.
  destruct (strip s); simpl; split; congruence.
Qed.

(** ** Every run is one of the listed runs *)

Arguments lit : simpl never.
Arguments str_of_int : simpl never.
Arguments strip : simpl never.
Arguments in_tuple : simpl never.
Arguments truthy : simpl never.
Arguments dict_get : simpl never.
Arguments read_html_url : simpl never.

(** The scrutinee at the head of a term made of nested matches. *)
Ltac scrutinee t :=
  lazymatch t with
  | match ?x with _ => _ end => scrutinee x
  | if ?x then _ else _ => scrutinee x
  | ?f _ => let r := scrutinee f in lazymatch r with f => t | _ => r end
  | _ => t
  end.

(** One goal per way the step run in [H] can go: each answer of the
    provider is split into its cases. *)
Ltac split_step H :=
  repeat (cbn in H;
          lazymatch type of H with
          | ?run = _ =>
              let x := scrutinee run in
              lazymatch x with
              | run => fail
              | _ => destruct x eqn:?
              end
          end);
  injection H as <- <- <-.

Section Steps.
Context {W : Type} {P : Provider W}.
Variable GITHUB_TOKEN : str.

Lemma deploy_steps (req : DeployRequest) :
  deploy GITHUB_TOKEN req =
    if negb (truthy_str (strip (html req))) then
      raise (HTTPException 400 $"Empty HTML content provided")
    else
      user <- authenticate GITHUB_TOKEN ;;
      repo <- resolve user (repoName req) ;;
      sleep 2 ;;;
      push repo (html req) ;;;
      pages GITHUB_TOKEN (login user) (repoName req).
Proof. reflexivity. Qed.

Lemma authenticate_runs (w w' : W) (tr0 tr : list event)
    (o : outcome AuthenticatedUser) :
  authenticate GITHUB_TOKEN (w, tr0) = (o, (w', tr)) ->
  tr = tr0 ++ [Ev (GetUser GITHUB_TOKEN) (answer RUser o)].
Proof.
  intros H.
  cbv [authenticate bind try_except get_user ret complete perform
       credential] in H.
  split_step H; reflexivity.
Qed.

Lemma resolve_runs (user : AuthenticatedUser) (name : str) (w w' : W)
    (tr0 tr : list event) (o : outcome Repository) :
  resolve user name (w, tr0) = (o, (w', tr)) ->
  exists looked, tr = tr0 ++ looked /\ resolve_run user name looked o.
Proof.
  intros H.
  cbv [resolve try_except get_repo create_repo perform select catches
       handler raise] in H.
  split_step H; rewrite <- ?app_assoc; eexists; (split; [reflexivity|]).
  - apply resolve_found.
  - apply resolve_created.
    match goal with E : (_ =? 404) = true |- _ => apply Z.eqb_eq in E end.
    congruence.
  - eapply resolve_refused; [eassumption|].
    match goal with E : (_ =? 404) = false |- _ => apply Z.eqb_neq in E end.
    assumption.
  - match goal with E : exn_status ?x = None |- _ => destruct x end;
      discriminate.
  - apply resolve_escaped. assumption.
Qed.

Lemma push_runs (repo : Repository) (content : str) (w w' : W)
    (tr0 tr : list event) (o : outcome unit) :
  push repo content (w, tr0) = (o, (w', tr)) ->
  exists pushed, tr = tr0 ++ pushed /\ push_run repo content pushed o.
Proof.
  intros H.
  cbv [push try_except bind lift get_contents update_file create_file
       perform select catches handler raise attr_sha] in H.
  split_step H; rewrite <- ?app_assoc; eexists; (split; [reflexivity|]).
  all: repeat match goal with u : unit |- _ => destruct u end.
  all: first
    [ apply push_updated
    | apply push_update_vanished; assumption
    | apply push_update_failed; assumption
    | apply push_update_escaped; assumption
    | apply push_lookup_escaped; assumption
    | apply push_directory
    | apply push_created; assumption
    | apply push_lookup_failed; assumption ].
Qed.

Lemma pages_runs (username name : str) (w w' : W)
    (tr0 tr : list event) (o : outcome value) :
  pages GITHUB_TOKEN username name (w, tr0) = (o, (w', tr)) ->
  exists published,
    tr = tr0 ++ published /\ pages_run GITHUB_TOKEN username name published o.
Proof.
  intros H.
  cbv [pages bind lift ret post get perform raise] in H.
  split_step H; rewrite <- ?app_assoc; eexists; (split; [reflexivity|]).
  all: repeat match goal with
              | E : negb _ = true |- _ => apply negb_true_iff in E
              | E : negb _ = false |- _ => apply negb_false_iff in E
              end.
  all: try apply pages_enable_escaped.
  all: try (apply pages_enable_refused; assumption).
  all: try (apply pages_fetch_escaped; assumption).
  all: try (apply pages_fetch_refused; [|apply Z.eqb_neq]; assumption).
  all: match goal with
       | E : (resp_status_code ?info =? 200) = true
         |- pages_run _ _ _ _ ?o =>
           replace o with (read_html_url info);
           [ apply pages_fetched; [|apply Z.eqb_eq]; assumption
           | unfold read_html_url;
             repeat match goal with
                    | E' : ?l = _ |- context [?l] => rewrite E'
                    end;
             reflexivity ]
       end.
Qed.

(** Every run of the handler is one of the listed runs. *)
Lemma deploy_runs (req : DeployRequest) (w : W)
    (o : outcome value) (tr : list event) :
  serve GITHUB_TOKEN req w = (o, tr) ->
  deploy_run GITHUB_TOKEN req tr o.
Proof.
  unfold serve. rewrite deploy_steps. intros H.
  destruct (negb (truthy_str (strip (html req)))) eqn:Hblank.
  - injection H as <- <-. apply run_blank.
    destruct (strip (html req)); [reflexivity | discriminate].
  - apply truthy_str_strip in Hblank.
    unfold bind in H.
    destruct (authenticate _ _) as [o1 [w1 tr1]] eqn:E1.
    apply authenticate_runs in E1. subst tr1.
    destruct o1 as [user | e];
      [| injection H as <- <-; apply run_unauthenticated; assumption].
    cbn [answer] in H |- *.
    destruct (resolve _ _ _) as [o2 [w2 tr2]] eqn:E2.
    apply resolve_runs in E2. destruct E2 as [looked [-> Hlooked]].
    destruct o2 as [repo | e];
      [| injection H as <- <-; apply run_unresolved; assumption].
    cbn [sleep perform answer] in H.
    destruct (push _ _ _) as [o3 [w3 tr3]] eqn:E3.
    apply push_runs in E3. destruct E3 as [pushed [-> Hpushed]].
    destruct o3 as [[] | e];
      [| injection H as <- <-; rewrite <- !app_assoc;
         apply (run_unpushed _ _ user looked repo pushed); assumption].
    destruct (pages _ _ _ _) as [o4 [w4 tr4]] eqn:E4.
    apply pages_runs in E4. destruct E4 as [published [-> Hpublished]].
    injection H as <- <-.
    rewrite <- !app_assoc.
    apply (run_pushed _ _ user looked repo pushed published); assumption.
Qed.

End Steps.

(** ** The claims *)

(** The cases of the run in [H], each with its record of calls. *)
Ltac invert_run H :=
  apply deploy_runs in H; inversion H; subst; clear H;
  repeat match goal with
         | R : resolve_run _ _ _ _ |- _ => inversion R; subst; clear R
         | R : push_run _ _ _ _ |- _ => inversion R; subst; clear R
         | R : pages_run _ _ _ _ _ |- _ => inversion R; subst; clear R
         end.

(** The cases of [In ev [e1; ...; en]]. *)
Ltac in_record H :=
  unfold lookup_index, update_index, create_index, enable_pages,
    fetch_pages in H;
  cbn in H;
  repeat match type of H with
         | _ \/ _ => destruct H as [H | H]
         | False => contradiction
         | Ev _ _ = Ev _ _ => first [discriminate H | injection H as H; subst]
         | _ = _ => first [discriminate H | subst]
         end.

(** Evaluates "no call failed" on the record of one case. *)
Ltac read_failures H :=
  cbn in H;
  repeat match goal with
         | E : exn_status _ = _ |- _ => rewrite E in H
         | E : isinstance_UnknownObjectException _ = _ |- _ => rewrite E in H
         end;
  cbn in H.

(** A listed record ends with its last call. *)
Ltac ends_with :=
  lazymatch goal with
  | |- exists before, ?tr = before ++ [_] =>
      exists (removelast tr); reflexivity
  end.

Section Claims.
Context {W : Type} {P : Provider W}.
Variable GITHUB_TOKEN : str.

(** C1. A request whose html is empty or all whitespace is refused with
    status 400 ("Empty HTML content provided", the validation error), the
    record of calls stays empty and the provider is left as it was: no
    authentication, lookup, file or pages call is made. *)
Theorem blank_html_is_refused (req : DeployRequest) (w : W) :
  Forall (fun c => isspace c = true) (html req) ->
  deploy GITHUB_TOKEN req (w, []) =
    (Raise (HTTPException 400 $"Empty HTML content provided"), (w, [])).
Proof.
  intros Hblank. unfold deploy.
  rewrite (strip_blank _ Hblank). reflexivity.
Qed.

(** The identity request is not guarded: [g.get_user()] sends nothing, so
    the [try] around it never sees a refusal; the request goes out when
    [user.login] is read, after the [try].  Whatever it raises leaves the
    handler as it is, and it is the only call of the run. *)
Lemma identity_failure_escapes (req : DeployRequest) (w : W)
    (o : outcome value) (tr : list event) (token : str) (e : exn) :
  serve GITHUB_TOKEN req w = (o, tr) ->
  In (Ev (GetUser token) (RRaised e)) tr ->
  o = Raise e /\
  tr = [Ev (GetUser GITHUB_TOKEN) (RRaised e)].
Proof.
  intros H Hin. invert_run H; in_record Hin.
  split; reflexivity.
Qed.

(** C4. When the pages-enable call (the POST) answers with a status other
    than 201 and 204, no pages-fetch call (GET) is made and the handler
    fails with status 500; the detail is "Enabling Pages failed (STATUS):
    BODY", so it includes the answered status code and the answered body. *)
Theorem pages_enable_refusal_is_500 (req : DeployRequest) (w : W)
    (o : outcome value) (tr : list event)
    (url : str) (hdrs : dict) (json : value) (resp : Response) :
  serve GITHUB_TOKEN req w = (o, tr) ->
  In (Ev (RequestsPost url hdrs json) (RResponse resp)) tr ->
  ~ In (resp_status_code resp) [201; 204] ->
  count is_RequestsGet tr = 0%nat /\
  exists detail,
    o = Raise (HTTPException 500 detail) /\
    detail = $"Enabling Pages failed (" ++ str_of_int (resp_status_code resp)
               ++ $"): " ++ resp_text resp /\
    includes (str_of_int (resp_status_code resp)) detail /\
    includes (resp_text resp) detail.
Proof.
  intros H Hin Hstatus. rewrite <- in_tuple_In in Hstatus.
  invert_run H; in_record Hin; try contradiction.
  all: split; [reflexivity|].
  all: eexists; split; [reflexivity|]; split; [reflexivity|].
  all: split; [apply includes_mid|].
  all: rewrite 2!app_assoc; apply includes_end.
Qed.

(** C5. When the pages-fetch call (the GET) answers with status 200 and a
    JSON object that has no [html_url] key, the handler fails with status
    500 ("No html_url in Pages response"); it does not return a result. *)
Theorem missing_html_url_is_500 (req : DeployRequest) (w : W)
    (o : outcome value) (tr : list event)
    (url : str) (hdrs : dict) (info : Response)
    (body : list (str * value)) :
  serve GITHUB_TOKEN req w = (o, tr) ->
  In (Ev (RequestsGet url hdrs) (RResponse info)) tr ->
  resp_status_code info = 200 ->
  resp_json info = Return (PDict body) ->
  lookup $"html_url" body = None ->
  o = Raise (HTTPException 500 $"No html_url in Pages response") /\
  forall v, o <> Return v.
Proof.
  intros H Hin Hstatus Hjson Habsent.
  assert (Hread : read_html_url info =
                  Raise (HTTPException 500 $"No html_url in Pages response")).
  { unfold read_html_url, json_get, dict_get.
    rewrite Hjson, Habsent. reflexivity. }
  invert_run H; in_record Hin; try contradiction.
  all: rewrite Hread; split; [reflexivity | discriminate].
Qed.


(** C3. On the happy path, when the repository lookup answers "absent"
    (the not-found signal) and the new repository holds no [index.html]
    yet (its content lookup answers not-found, as an auto-initialised
    repository does), the run makes exactly one repository-creation call,
    for the requested name and with auto-initialisation, exactly one
    file-create call and no file-update call. *)
Theorem absent_repository_is_created_once (req : DeployRequest) (w : W)
    (o : outcome value) (tr : list event)
    (user : AuthenticatedUser) (name : str) (e : exn)
    (repo : Repository) (path ref : str) (e' : exn) :
  serve GITHUB_TOKEN req w = (o, tr) ->
  happy_path o tr ->
  In (Ev (GetRepo user name) (RRaised e)) tr ->
  In (Ev (GetContents repo path ref) (RRaised e')) tr ->
  count is_CreateRepo tr = 1%nat /\
  count is_CreateFile tr = 1%nat /\
  count is_UpdateFile tr = 0%nat /\
  exists after,
    tr = [Ev (GetUser GITHUB_TOKEN) (RUser user);
          Ev (GetRepo user (repoName req)) (RRaised e);
          Ev (CreateRepo user (repoName req) true) (RRepo repo);
          Ev (Sleep 2) RDone;
          Ev (GetContents repo $"index.html" $"main") (RRaised e');
          Ev (CreateFile repo $"index.html" $"Add index.html" (html req)
                $"main") RDone]
         ++ after.
Proof.
  intros H [[v Hv] Hok] Hrepo Hfile.
  invert_run H; try discriminate Hv; in_record Hrepo; in_record Hfile.
  all: read_failures Hok; try discriminate Hok.
  all: repeat (split; [reflexivity|]).
  all: eexists; reflexivity.
Qed.

(** C10. For a request whose html is not blank, every file-create and
    file-update call of the run is given the request's html as it came,
    untrimmed, as content of [index.html] on [main]. *)
Theorem pushed_content_is_the_html (req : DeployRequest) (w : W)
    (o : outcome value) (tr : list event) (ev : event) :
  serve GITHUB_TOKEN req w = (o, tr) ->
  strip (html req) <> [] ->
  In ev tr ->
  match ev_call ev with
  | UpdateFile _ path _ content _ branch
  | CreateFile _ path _ content branch =>
      content = html req /\ path = $"index.html" /\ branch = $"main"
  | _ => True
  end.
Proof.
  intros H _ Hin.
  invert_run H; in_record Hin; cbn; auto.
Qed.

(** C6, as the code has it.  When the repository lookup raises a
    [GithubException] whose status is not 404, the handler fails with
    status 400 (not 500); the detail is "Repo access error: " followed by
    the provider's diagnostic text, and the lookup is the last call of the
    run. *)
Theorem lookup_failure_is_400 (req : DeployRequest) (w : W)
    (o : outcome value) (tr : list event)
    (user : AuthenticatedUser) (name : str) (e : exn) :
  serve GITHUB_TOKEN req w = (o, tr) ->
  In (Ev (GetRepo user name) (RRaised e)) tr ->
  isinstance_GithubException e = true ->
  exn_status e <> Some 404 ->
  o = Raise (HTTPException 400 ($"Repo access error: " ++ exn_str e)) /\
  includes (exn_str e) ($"Repo access error: " ++ exn_str e) /\
  tr = [Ev (GetUser GITHUB_TOKEN) (RUser user);
        Ev (GetRepo user (repoName req)) (RRaised e)].
Proof.
  intros H Hin Hclass Hstatus.
  invert_run H; in_record Hin; try congruence.
  all: split; [reflexivity|]; split; [apply includes_end | reflexivity].
Qed.

(** C9, as the code has it.  The handler does not look at [repoName]: for
    a request whose [repoName] is empty, once the identity lookup has
    answered, the next call is the repository lookup, sent to the provider
    with the empty name. *)
Theorem empty_repo_name_is_looked_up (req : DeployRequest) (w : W)
    (o : outcome value) (tr : list event)
    (token : str) (user : AuthenticatedUser) :
  serve GITHUB_TOKEN req w = (o, tr) ->
  repoName req = [] ->
  In (Ev (GetUser token) (RUser user)) tr ->
  exists answered after,
    tr = Ev (GetUser GITHUB_TOKEN) (RUser user)
         :: Ev (GetRepo user []) answered :: after.
Proof.
  intros H Hname Hin. rewrite <- Hname.
  invert_run H; in_record Hin.
  all: eexists; eexists; reflexivity.
Qed.

(** The file-update call is guarded: when it raises an [Exception] other
    than an [UnknownObjectException], the handler fails with status 500
    and the detail "Failed to push index.html: " followed by the
    diagnostic. *)
Lemma update_failure_is_500 (req : DeployRequest) (w : W)
    (o : outcome value) (tr : list event)
    (repo : Repository) (path message content rev branch : str) (e : exn) :
  serve GITHUB_TOKEN req w = (o, tr) ->
  In (Ev (UpdateFile repo path message content rev branch) (RRaised e)) tr ->
  isinstance_UnknownObjectException e = false ->
  isinstance_Exception e = true ->
  o = Raise (HTTPException 500 ($"Failed to push index.html: " ++ exn_str e)).
Proof.
  intros H Hin Hclass Hexception.
  invert_run H; in_record Hin; try congruence; reflexivity.
Qed.

(** The file-create call sits in an [except] clause, out of reach of the
    clause that guards the update: whatever it raises leaves the handler
    as it is, and nothing is called after it. *)
Lemma create_failure_escapes (req : DeployRequest) (w : W)
    (o : outcome value) (tr : list event)
    (repo : Repository) (path message content branch : str) (e : exn) :
  serve GITHUB_TOKEN req w = (o, tr) ->
  In (Ev (CreateFile repo path message content branch) (RRaised e)) tr ->
  o = Raise e /\
  exists before,
    tr = before ++ [Ev (CreateFile repo path message content branch)
                      (RRaised e)].
Proof.
  intros H Hin.
  invert_run H; in_record Hin.
  all: split; [reflexivity|].
  all: ends_with.
Qed.

(** X7. No step is retried or skipped over: a call that failed (other than an
    update that found the file gone, which falls back to creating it) is
    the last call of the run. *)
Lemma failure_ends_the_run (req : DeployRequest) (w : W)
    (o : outcome value) (tr : list event) (ev : event) (e : exn) :
  serve GITHUB_TOKEN req w = (o, tr) ->
  In ev tr ->
  ev_reply ev = RRaised e ->
  not_found_signal ev = false ->
  (is_UpdateFile (ev_call ev) = true ->
   isinstance_UnknownObjectException e = false) ->
  exists before, tr = before ++ [ev].
Proof.
  intros H Hin Hraised Hsignal Hupdate.
  invert_run H; in_record Hin; cbn in Hraised; try discriminate Hraised.
  all: injection Hraised as Hraised; try subst.
  all: read_failures Hsignal; try discriminate Hsignal.
  all: try (specialize (Hupdate eq_refl); congruence).
  all: ends_with.
Qed.

(** X6. How a failed call surfaces.  A [GithubException] on the
    repository lookup comes out as status 400; an [Exception] on the
    content lookup or on the update comes out as status 500 "Failed to
    push index.html: ...".  Everything else leaves the handler as raised:
    whatever the identity request, the repository creation, the file
    creation or the two pages requests raise, any other exception of the
    repository lookup, and an exception outside [Exception] on the
    content lookup or the update. *)
Lemma failure_surfaces (req : DeployRequest) (w : W)
    (o : outcome value) (tr : list event) (ev : event) (e : exn) :
  serve GITHUB_TOKEN req w = (o, tr) ->
  In ev tr ->
  ev_reply ev = RRaised e ->
  not_found_signal ev = false ->
  (is_UpdateFile (ev_call ev) = true ->
   isinstance_UnknownObjectException e = false) ->
  o = Raise
        match ev_call ev with
        | GetRepo _ _ =>
            if isinstance_GithubException e
            then HTTPException 400 ($"Repo access error: " ++ exn_str e)
            else e
        | GetContents _ _ _ | UpdateFile _ _ _ _ _ _ =>
            if isinstance_Exception e
            then HTTPException 500
                   ($"Failed to push index.html: " ++ exn_str e)
            else e
        | _ => e
        end.
Proof.
  intros H Hin Hraised Hsignal Hupdate.
  invert_run H; in_record Hin; cbn in Hraised; try discriminate Hraised.
  all: injection Hraised as Hraised; try subst.
  all: read_failures Hsignal; try discriminate Hsignal.
  all: try (specialize (Hupdate eq_refl); congruence).
  all: cbn.
  all: repeat match goal with
              | E : isinstance_GithubException _ = _ |- _ => rewrite E
              | E : isinstance_Exception _ = _ |- _ => rewrite E
              | E : exn_status ?x = Some _ |- _ =>
                  is_var x; destruct x; try discriminate E; cbn
              end.
  all: reflexivity.
Qed.

End Claims.

(** The repository-creation call sits in an [except] clause as well:
    whatever it raises leaves the handler as it is. *)
Lemma create_repo_failure_escapes {W : Type} {P : Provider W}
    (GITHUB_TOKEN : str) (req : DeployRequest) (w : W)
    (o : outcome value) (tr : list event)
    (user : AuthenticatedUser) (name : str) (auto_init : bool) (e : exn) :
  serve GITHUB_TOKEN req w = (o, tr) ->
  In (Ev (CreateRepo user name auto_init) (RRaised e)) tr ->
  o = Raise e.
Proof.
  intros H Hin.
  invert_run H; in_record Hin; reflexivity.
Qed.

(** ** The claims on concrete runs *)

Ltac evaluate := vm_compute; repeat split; auto; try discriminate.

(** The end-to-end scenario: repository absent, then created, the file
    created, Pages enabled (201) and fetched (200). *)
Example demo_site_is_published :
  serve Mock.token Mock.demo Mock.fresh =
    (Return (PDict [($"url", PStr $"https://user.github.io/demo-site/")]),
     [Ev (GetUser Mock.token) (RUser Mock.octocat);
      Ev (GetRepo Mock.octocat $"demo-site") (RRaised Mock.not_found);
      Ev (CreateRepo Mock.octocat $"demo-site" true) (RRepo Mock.demo_repo);
      Ev (Sleep 2) RDone;
      Ev (GetContents Mock.demo_repo $"index.html" $"main")
        (RRaised Mock.not_found);
      Ev (CreateFile Mock.demo_repo $"index.html" $"Add index.html"
            $"<h1>Hi</h1>" $"main") RDone;
      Ev (RequestsPost $"https://api.github.com/repos/user/demo-site/pages"
            [($"Authorization", $"Bearer ghp_example");
             ($"Accept", $"application/vnd.github+json")]
            (PDict [($"source", PDict [($"branch", PStr $"main");
                                       ($"path", PStr $"/")])]))
        (RResponse Mock.pages_created);
      Ev (RequestsGet $"https://api.github.com/repos/user/demo-site/pages"
            [($"Authorization", $"Bearer ghp_example");
             ($"Accept", $"application/vnd.github+json")])
        (RResponse Mock.pages_info)]).
Proof. vm_compute. reflexivity. Qed.

(** C7. A refused credential does not come out as status 401.  The
    refusal is raised when [user.login] is read, outside the [try] that
    guards [g.get_user()]: with the identity request answered 401 "Bad
    credentials", that exception leaves the handler as raised, not as an
    [HTTPException].  The request is the only call of the run. *)
Example rejected_credential_escapes :
  let run := serve Mock.token Mock.demo Mock.rejecting in
  snd run = [Ev (GetUser Mock.token) (RRaised Mock.bad_credentials)] /\
  fst run = Raise (GithubException 401 $"Bad credentials") /\
  structured (fst run) = false.
Proof. evaluate. Qed.

(** C8. A file-create call that fails on the path where [index.html] was
    absent is not turned into a structured error: with the repository
    found, the content lookup answering not-found and the file-create
    call raising a [GithubException] of status 422, that exception leaves
    the handler as raised, not as an [HTTPException]. *)
Example create_file_failure_is_unstructured :
  let run := serve Mock.token Mock.demo Mock.read_only in
  snd run =
    [Ev (GetUser Mock.token) (RUser Mock.octocat);
     Ev (GetRepo Mock.octocat $"demo-site") (RRepo Mock.demo_repo);
     Ev (Sleep 2) RDone;
     Ev (GetContents Mock.demo_repo $"index.html" $"main")
       (RRaised Mock.not_found);
     Ev (CreateFile Mock.demo_repo $"index.html" $"Add index.html"
           $"<h1>Hi</h1>" $"main")
       (RRaised Mock.invalid)] /\
  fst run = Raise (GithubException 422 $"Invalid request") /\
  structured (fst run) = false.
Proof. evaluate. Qed.

(** C6, as stated, fails: a repository lookup refused with status 403 is
    not the not-found signal, and the handler answers 400, not 500. *)
Lemma forbidden_lookup_is_not_500 :
  let run := serve Mock.token Mock.demo Mock.locked in
  let refused :=
    Ev (GetRepo Mock.octocat $"demo-site") (RRaised Mock.forbidden) in
  In refused (snd run) /\
  not_found_signal refused = false /\
  fst run = Raise (HTTPException 400 $"Repo access error: Forbidden") /\
  ~ (exists detail, fst run = Raise (HTTPException 500 detail)).
Proof.
  evaluate. intros [detail H]. discriminate H.
Qed.

(** C9, as stated, fails: a request with an empty [repoName] is not
    refused; the provider is asked to look up and to create a repository
    of that name. *)
Lemma empty_repo_name_is_not_refused :
  let run := serve Mock.token Mock.nameless Mock.fresh in
  repoName Mock.nameless = [] /\
  In (Ev (GetRepo Mock.octocat []) (RRaised Mock.not_found)) (snd run) /\
  In (Ev (CreateRepo Mock.octocat [] true) (RRepo Mock.demo_repo))
    (snd run) /\
  forall e, fst run <> Raise e.
Proof. evaluate. Qed.

(** C1 on a request whose html is a space, a line feed, a tab, a no-break
    space and an em space. *)
Lemma blank_html_is_refused_witness :
  Forall (fun c => isspace c = true) (html Mock.blank) /\
  deploy Mock.token Mock.blank (Mock.fresh, []) =
    (Raise (HTTPException 400 $"Empty HTML content provided"),
     (Mock.fresh, [])).
Proof.
  assert (Hblank : Forall (fun c => isspace c = true) (html Mock.blank))
    by (repeat constructor).
  split; [exact Hblank|].
  exact (blank_html_is_refused Mock.token Mock.blank Mock.fresh Hblank).
Defined.


(** C4 on a repository whose Pages site is already enabled: the enable
    call answers 409. *)
Lemma pages_enable_refusal_is_500_witness :
  let run := serve Mock.token Mock.demo Mock.already_enabled in
  let detail :=
    $"Enabling Pages failed (409): {'message': 'GitHub Pages is already enabled.'}" in
  In (Ev (RequestsPost (pages_api $"user" $"demo-site") (headers Mock.token)
            payload)
        (RResponse Mock.pages_conflict)) (snd run) /\
  ~ In (resp_status_code Mock.pages_conflict) [201; 204] /\
  count is_RequestsGet (snd run) = 0%nat /\
  fst run = Raise (HTTPException 500 detail) /\
  includes $"409" detail /\
  includes (resp_text Mock.pages_conflict) detail.
Proof.
  intros run detail.
  assert (Hin : In (Ev (RequestsPost (pages_api $"user" $"demo-site")
                          (headers Mock.token) payload)
                      (RResponse Mock.pages_conflict)) (snd run))
    by (vm_compute; auto 10).
  assert (Hstatus : ~ In (resp_status_code Mock.pages_conflict) [201; 204])
    by (intros [H | [H | []]]; discriminate H).
  destruct (pages_enable_refusal_is_500 Mock.token Mock.demo
              Mock.already_enabled (fst run) (snd run) _ _ _ _
              (surjective_pairing run) Hin Hstatus)
    as [Hget [d [Ho [Hd [Hcode Hbody]]]]].
  assert (Edetail : d = detail) by (rewrite Hd; reflexivity).
  rewrite Edetail in Ho, Hcode, Hbody.
  repeat split; assumption.
Defined.

(** C5 on a Pages configuration that lists a status and no [html_url]. *)
Lemma missing_html_url_is_500_witness :
  let run := serve Mock.token Mock.demo Mock.building in
  In (Ev (RequestsGet (pages_api $"user" $"demo-site") (headers Mock.token))
        (RResponse Mock.pages_building)) (snd run) /\
  resp_status_code Mock.pages_building = 200 /\
  resp_json Mock.pages_building =
    Return (PDict [($"status", PStr $"building")]) /\
  lookup $"html_url" [($"status", PStr $"building")] = None /\
  fst run = Raise (HTTPException 500 $"No html_url in Pages response") /\
  forall v, fst run <> Return v.
Proof.
  intros run.
  assert (Hin : In (Ev (RequestsGet (pages_api $"user" $"demo-site")
                          (headers Mock.token))
                      (RResponse Mock.pages_building)) (snd run))
    by (vm_compute; auto 10).
  assert (Habsent : lookup $"html_url" [($"status", PStr $"building")] = None)
    by reflexivity.
  split; [exact Hin|]. split; [reflexivity|]. split; [reflexivity|].
  split; [exact Habsent|].
  exact (missing_html_url_is_500 Mock.token Mock.demo Mock.building
           (fst run) (snd run) _ _ Mock.pages_building _
           (surjective_pairing run) Hin eq_refl eq_refl Habsent).
Defined.


(** C3 on a repository that does not exist yet. *)
Lemma absent_repository_is_created_once_witness :
  let run := serve Mock.token Mock.demo Mock.fresh in
  happy_path (fst run) (snd run) /\
  In (Ev (GetRepo Mock.octocat $"demo-site") (RRaised Mock.not_found))
    (snd run) /\
  In (Ev (GetContents Mock.demo_repo $"index.html" $"main")
        (RRaised Mock.not_found)) (snd run) /\
  count is_CreateRepo (snd run) = 1%nat /\
  count is_CreateFile (snd run) = 1%nat /\
  count is_UpdateFile (snd run) = 0%nat /\
  exists after,
    snd run =
      [Ev (GetUser Mock.token) (RUser Mock.octocat);
       Ev (GetRepo Mock.octocat $"demo-site") (RRaised Mock.not_found);
       Ev (CreateRepo Mock.octocat $"demo-site" true) (RRepo Mock.demo_repo);
       Ev (Sleep 2) RDone;
       Ev (GetContents Mock.demo_repo $"index.html" $"main")
         (RRaised Mock.not_found);
       Ev (CreateFile Mock.demo_repo $"index.html" $"Add index.html"
             $"<h1>Hi</h1>" $"main") RDone]
      ++ after.
Proof.
  intros run.
  assert (Hhappy : happy_path (fst run) (snd run))
    by (split; [eexists|]; vm_compute; reflexivity).
  assert (Hrepo : In (Ev (GetRepo Mock.octocat $"demo-site")
                        (RRaised Mock.not_found)) (snd run))
    by (vm_compute; auto 10).
  assert (Hfile : In (Ev (GetContents Mock.demo_repo $"index.html" $"main")
                        (RRaised Mock.not_found)) (snd run))
    by (vm_compute; auto 10).
  split; [exact Hhappy|]. split; [exact Hrepo|]. split; [exact Hfile|].
  exact (absent_repository_is_created_once Mock.token Mock.demo Mock.fresh
           (fst run) (snd run) _ _ _ _ _ _ _
           (surjective_pairing run) Hhappy Hrepo Hfile).
Defined.

(** C10 on html padded with spaces: the padding is pushed as well. *)
Lemma pushed_content_is_the_html_witness :
  let run := serve Mock.token Mock.padded Mock.fresh in
  let created :=
    Ev (CreateFile Mock.demo_repo $"index.html" $"Add index.html"
          $"  <h1>Hi</h1> " $"main") RDone in
  strip (html Mock.padded) <> [] /\
  strip (html Mock.padded) = $"<h1>Hi</h1>" /\
  In created (snd run) /\
  $"  <h1>Hi</h1> " = html Mock.padded /\
  $"index.html" = $"index.html" /\ $"main" = $"main".
Proof.
  intros run created.
  assert (Hhtml : strip (html Mock.padded) <> [])
    by (vm_compute; discriminate).
  assert (Hin : In created (snd run)) by (vm_compute; auto 10).
  split; [exact Hhtml|]. split; [reflexivity|]. split; [exact Hin|].
  exact (pushed_content_is_the_html Mock.token Mock.padded Mock.fresh
           (fst run) (snd run) created
           (surjective_pairing run) Hhtml Hin).
Defined.

(** C6, as the code has it, on a repository lookup refused with 403. *)
Lemma lookup_failure_is_400_witness :
  let run := serve Mock.token Mock.demo Mock.locked in
  In (Ev (GetRepo Mock.octocat $"demo-site") (RRaised Mock.forbidden))
    (snd run) /\
  isinstance_GithubException Mock.forbidden = true /\
  exn_status Mock.forbidden <> Some 404 /\
  fst run = Raise (HTTPException 400 $"Repo access error: Forbidden") /\
  includes $"Forbidden" $"Repo access error: Forbidden" /\
  snd run =
    [Ev (GetUser Mock.token) (RUser Mock.octocat);
     Ev (GetRepo Mock.octocat $"demo-site") (RRaised Mock.forbidden)].
Proof.
  intros run.
  assert (Hin : In (Ev (GetRepo Mock.octocat $"demo-site")
                      (RRaised Mock.forbidden)) (snd run))
    by (vm_compute; auto 10).
  assert (Hstatus : exn_status Mock.forbidden <> Some 404)
    by discriminate.
  split; [exact Hin|]. split; [reflexivity|]. split; [exact Hstatus|].
  exact (lookup_failure_is_400 Mock.token Mock.demo Mock.locked
           (fst run) (snd run) _ _ _
           (surjective_pairing run) Hin eq_refl Hstatus).
Defined.

(** C9, as the code has it, on a request with an empty [repoName]. *)
Lemma empty_repo_name_is_looked_up_witness :
  let run := serve Mock.token Mock.nameless Mock.fresh in
  repoName Mock.nameless = [] /\
  In (Ev (GetUser Mock.token) (RUser Mock.octocat)) (snd run) /\
  exists answered after,
    snd run = Ev (GetUser Mock.token) (RUser Mock.octocat)
              :: Ev (GetRepo Mock.octocat []) answered :: after.
Proof.
  intros run.
  assert (Hin : In (Ev (GetUser Mock.token) (RUser Mock.octocat)) (snd run))
    by (vm_compute; auto 10).
  split; [reflexivity|]. split; [exact Hin|].
  exact (empty_repo_name_is_looked_up Mock.token Mock.nameless Mock.fresh
           (fst run) (snd run) _ _
           (surjective_pairing run) eq_refl Hin).
Defined.

(* ================================================================== *)
(** * Further properties of the handler *)
(* ================================================================== *)

(** ** Strings *)

Lemma lstrip_nil_blank (s : str) :
  lstrip s = [] -> Forall (fun c => isspace c = true) s.
Proof.
  induction s as [|c s IH]; simpl; [constructor|].
  destruct (isspace c) eqn:Hc; [|discriminate].
  intros H. constructor; [exact Hc | exact (IH H)].
Qed.

Lemma lstrip_head (s : str) (c : char) (rest : str) :
  lstrip s = c :: rest -> isspace c = false.
Proof.
  induction s as [|a s IH]; simpl; [discriminate|].
  destruct (isspace a) eqn:Ha; [exact IH|].
  intros H. injection H as <- _. exact Ha.
Qed.

Lemma strip_nil_blank (s : str) :
  strip s = [] -> Forall (fun c => isspace c = true) s.
Proof.
  unfold strip, rstrip. intros H.
  apply (f_equal (@rev char)) in H. rewrite rev_involutive in H. simpl in H.
  apply lstrip_nil_blank in H. apply Forall_rev in H.
  rewrite rev_involutive in H.
  destruct (lstrip s) as [|c rest] eqn:E.
  - exact (lstrip_nil_blank s E).
  - apply lstrip_head in E. inversion H; congruence.
Qed.

Lemma read_html_url_returns (info : Response) (v : value) :
  read_html_url info = Return v ->
  exists body,
    resp_json info = Return (PDict body) /\
    truthy (dict_get body $"html_url") = true /\
    v = PDict [($"url", dict_get body $"html_url")].
Proof.
  unfold read_html_url, json_get. intros H.
  destruct (resp_json info) as [body | e]; [|discriminate].
  destruct body; try discriminate.
  destruct (truthy (dict_get d $"html_url")) eqn:Ht; [|discriminate].
  injection H as <-. exists d. repeat split. exact Ht.
Qed.

Lemma read_html_url_raises (info : Response) (status : Z) (detail : str) :
  read_html_url info = Raise (HTTPException status detail) ->
  resp_json info = Raise (HTTPException status detail) \/ status = 500.
Proof.
  unfold read_html_url, json_get, AttributeError. intros H.
  destruct (resp_json info) as [body | e]; [|left; exact H].
  right. destruct body; try discriminate H.
  destruct (truthy (dict_get d $"html_url")); [discriminate H|].
  injection H as <- _. reflexivity.
Qed.

(** A listed record holds [x; y] next to each other. *)
Ltac adjacent :=
  lazymatch goal with
  | |- exists before after, ?tr = before ++ [?x; ?y] ++ after =>
      first [ exists [], (skipn 2 tr); reflexivity
            | exists (firstn 1 tr), (skipn 3 tr); reflexivity
            | exists (firstn 2 tr), (skipn 4 tr); reflexivity
            | exists (firstn 3 tr), (skipn 5 tr); reflexivity
            | exists (firstn 4 tr), (skipn 6 tr); reflexivity
            | exists (firstn 5 tr), (skipn 7 tr); reflexivity
            | exists (firstn 6 tr), (skipn 8 tr); reflexivity
            | exists (firstn 7 tr), (skipn 9 tr); reflexivity ]
  end.

Section Further.
Context {W : Type} {P : Provider W}.
Variable GITHUB_TOKEN : str.

(** X1. The html check is exact and comes first: the run makes no call at
    all exactly when the html is empty or all whitespace, and then the
    handler raises status 400; in every other run the first call is the
    identity lookup with the configured token. *)
Theorem no_call_iff_html_is_blank (req : DeployRequest) (w : W) :
  let run := serve GITHUB_TOKEN req w in
  (snd run = [] <-> Forall (fun c => isspace c = true) (html req)) /\
  (snd run = [] ->
   fst run = Raise (HTTPException 400 $"Empty HTML content provided")) /\
  (forall ev after, snd run = ev :: after ->
   ev_call ev = GetUser GITHUB_TOKEN).
Proof.
  intros run. subst run.
  destruct (serve GITHUB_TOKEN req w) as [o tr] eqn:H. cbn [fst snd].
  apply deploy_runs in H. split; [split|split].
  - intros ->. apply strip_nil_blank.
    inversion H; subst; [assumption | discriminate ..].
  - intros Hblank. apply strip_blank in Hblank.
    inversion H; subst; [reflexivity | contradiction ..].
  - intros ->. inversion H; subst. reflexivity.
  - intros ev after ->. inversion H; subst; reflexivity.
Qed.

(** X2. The calls of a run follow the order of the handler's text and
    none is made twice: identity lookup, repository lookup, repository
    creation, pause, content lookup, file update, file creation, pages
    enable, pages fetch.  Nothing is retried. *)
Theorem calls_follow_the_steps (req : DeployRequest) (w : W) :
  StronglySorted lt
    (map (fun ev => step (ev_call ev)) (snd (serve GITHUB_TOKEN req w))).
Proof.
  destruct (serve GITHUB_TOKEN req w) as [o tr] eqn:H. cbn [snd].
  invert_run H; cbn; repeat constructor.
Qed.

(** X3. A repository is created only when its lookup has just answered
    with status 404: the creation call comes right after that lookup, is
    made for the same user and the requested name, and asks for
    auto-initialisation. *)
Theorem repository_is_created_only_when_absent (req : DeployRequest) (w : W)
    (o : outcome value) (tr : list event)
    (user : AuthenticatedUser) (name : str) (auto_init : bool)
    (answered : reply) :
  serve GITHUB_TOKEN req w = (o, tr) ->
  In (Ev (CreateRepo user name auto_init) answered) tr ->
  name = repoName req /\
  auto_init = true /\
  exists e after,
    exn_status e = Some 404 /\
    tr = [Ev (GetUser GITHUB_TOKEN) (RUser user);
          Ev (GetRepo user name) (RRaised e);
          Ev (CreateRepo user name true) answered]
         ++ after.
Proof.
  intros H Hin.
  invert_run H; in_record Hin.
  all: split; [reflexivity|]; split; [reflexivity|].
  all: eexists; eexists; split; [eassumption | reflexivity].
Qed.

(** X4. No file call without the pause: the content lookup is always
    made right after the 2-second pause, on [index.html] at [main], and on
    the repository that the lookup or the creation answered with. *)
Theorem content_lookup_follows_the_pause (req : DeployRequest) (w : W)
    (o : outcome value) (tr : list event)
    (repo : Repository) (path ref : str) (answered : reply) :
  serve GITHUB_TOKEN req w = (o, tr) ->
  In (Ev (GetContents repo path ref) answered) tr ->
  path = $"index.html" /\
  ref = $"main" /\
  (exists user,
      In (Ev (GetRepo user (repoName req)) (RRepo repo)) tr \/
      In (Ev (CreateRepo user (repoName req) true) (RRepo repo)) tr) /\
  exists before after,
    tr = before
         ++ [Ev (Sleep 2) RDone; Ev (GetContents repo path ref) answered]
         ++ after.
Proof.
  intros H Hin.
  invert_run H; in_record Hin.
  all: split; [reflexivity|]; split; [reflexivity|].
  all: split; [eexists; cbn; auto 10 | adjacent].
Qed.

(** X5. When the update finds the file gone (it raises an
    [UnknownObjectException]), the handler falls back to creating it: the
    next call is the file creation, with the request's html. *)
Theorem vanished_index_is_created (req : DeployRequest) (w : W)
    (o : outcome value) (tr : list event)
    (repo : Repository) (path message content rev branch : str) (e : exn) :
  serve GITHUB_TOKEN req w = (o, tr) ->
  In (Ev (UpdateFile repo path message content rev branch) (RRaised e)) tr ->
  isinstance_UnknownObjectException e = true ->
  exists answered before after,
    tr = before
         ++ [Ev (UpdateFile repo path message content rev branch) (RRaised e);
             Ev (CreateFile repo $"index.html" $"Add index.html" (html req)
                   $"main") answered]
         ++ after.
Proof.
  intros H Hin Hclass.
  invert_run H; in_record Hin; try congruence.
  all: eexists; adjacent.
Qed.

(** X8. When the pages-fetch call (the GET) answers with a status other
    than 200, the handler fails with status 500; the detail is "Fetching
    Pages info failed (STATUS): BODY", and the GET is the last call. *)
Theorem pages_fetch_refusal_is_500 (req : DeployRequest) (w : W)
    (o : outcome value) (tr : list event)
    (url : str) (hdrs : dict) (info : Response) :
  serve GITHUB_TOKEN req w = (o, tr) ->
  In (Ev (RequestsGet url hdrs) (RResponse info)) tr ->
  resp_status_code info <> 200 ->
  o = Raise (HTTPException 500
               ($"Fetching Pages info failed ("
                  ++ str_of_int (resp_status_code info)
                  ++ $"): " ++ resp_text info)) /\
  exists before, tr = before ++ [Ev (RequestsGet url hdrs) (RResponse info)].
Proof.
  intros H Hin Hstatus.
  invert_run H; in_record Hin; try contradiction.
  all: split; [reflexivity | ends_with].
Qed.

(** X9. With a GET answered 200 and a JSON object, the value under
    [html_url] decides the result: a value that Python counts as false
    (absent or [null], an empty string, zero, [false], an empty array or
    object) gives status 500 "No html_url in Pages response"; any other
    value is returned as it is, under the single key [url]. *)
Theorem html_url_decides_the_result (req : DeployRequest) (w : W)
    (o : outcome value) (tr : list event)
    (url : str) (hdrs : dict) (info : Response)
    (body : list (str * value)) :
  serve GITHUB_TOKEN req w = (o, tr) ->
  In (Ev (RequestsGet url hdrs) (RResponse info)) tr ->
  resp_status_code info = 200 ->
  resp_json info = Return (PDict body) ->
  o = if truthy (dict_get body $"html_url")
      then Return (PDict [($"url", dict_get body $"html_url")])
      else Raise (HTTPException 500 $"No html_url in Pages response").
Proof.
  intros H Hin Hstatus Hjson.
  assert (Hread : read_html_url info =
                  if truthy (dict_get body $"html_url")
                  then Return (PDict [($"url", dict_get body $"html_url")])
                  else Raise (HTTPException 500
                                $"No html_url in Pages response")).
  { unfold read_html_url, json_get. rewrite Hjson.
    destruct (truthy (dict_get body $"html_url")); reflexivity. }
  invert_run H; in_record Hin; try contradiction.
  all: exact Hread.
Qed.

(** X10. With a GET answered 200 whose body cannot be used, the failure
    is not turned into a structured error: an exception of the JSON
    decoder leaves the handler as raised, and a decoded body that is not
    an object makes the handler raise an exception that is not an
    [HTTPException]. *)
Theorem unusable_pages_body_escapes (req : DeployRequest) (w : W)
    (o : outcome value) (tr : list event)
    (url : str) (hdrs : dict) (info : Response) :
  serve GITHUB_TOKEN req w = (o, tr) ->
  In (Ev (RequestsGet url hdrs) (RResponse info)) tr ->
  resp_status_code info = 200 ->
  (forall body, resp_json info <> Return (PDict body)) ->
  match resp_json info with
  | Raise e => o = Raise e
  | Return _ => structured o = false /\ exists e, o = Raise e
  end.
Proof.
  intros H Hin Hstatus Hbody.
  assert (Hread : match resp_json info with
                  | Raise e => read_html_url info = Raise e
                  | Return _ =>
                      structured (read_html_url info) = false /\
                      exists e, read_html_url info = Raise e
                  end).
  { unfold read_html_url, json_get.
    destruct (resp_json info) as [body | e]; [|reflexivity].
    destruct body; try (split; [reflexivity | eexists; reflexivity]).
    contradiction (Hbody d). reflexivity. }
  invert_run H; in_record Hin; try contradiction.
  all: exact Hread.
Qed.

(** X11. A result is returned only after Pages was enabled and fetched:
    the last two calls are the POST, answered 201 or 204, and the GET,
    answered 200 with a JSON object; the result is the object
    [{"url": v}] where [v] is that object's [html_url], which Python
    counts as true. *)
Theorem result_means_published (req : DeployRequest) (w : W)
    (tr : list event) (v : value) :
  serve GITHUB_TOKEN req w = (Return v, tr) ->
  exists before user resp info body,
    tr = before
         ++ [Ev (RequestsPost (pages_api (login user) (repoName req))
                   (headers GITHUB_TOKEN) payload) (RResponse resp);
             Ev (RequestsGet (pages_api (login user) (repoName req))
                   (headers GITHUB_TOKEN)) (RResponse info)] /\
    In (resp_status_code resp) [201; 204] /\
    resp_status_code info = 200 /\
    resp_json info = Return (PDict body) /\
    truthy (dict_get body $"html_url") = true /\
    v = PDict [($"url", dict_get body $"html_url")].
Proof.
  intros H.
  invert_run H.
  all: match goal with
       | E : read_html_url ?info = Return _ |- _ =>
           apply read_html_url_returns in E;
           destruct E as [body [Hjson [Htrue ->]]]
       | E : Return _ = read_html_url ?info |- _ =>
           symmetry in E; apply read_html_url_returns in E;
           destruct E as [body [Hjson [Htrue ->]]]
       end.
  all: match goal with
       | E : in_tuple _ _ = true |- _ => apply in_tuple_In in E
       end.
  all: first
    [ eexists [_; _; _; _; _]; do 4 eexists; split; [reflexivity|]
    | eexists [_; _; _; _; _; _]; do 4 eexists; split; [reflexivity|]
    | eexists [_; _; _; _; _; _; _]; do 4 eexists; split; [reflexivity|] ].
  all: repeat split; eassumption.
Qed.

(** X12. The two pages requests go to the repository of the request under
    the authenticated user: the URL is
    [https://api.github.com/repos/LOGIN/REPONAME/pages] with the login
    the identity lookup answered, the headers carry the configured token
    as a bearer credential, and the POST asks for branch [main], path [/]. *)
Theorem pages_requests_target_the_repository (req : DeployRequest) (w : W)
    (o : outcome value) (tr : list event) (ev : event) :
  serve GITHUB_TOKEN req w = (o, tr) ->
  In ev tr ->
  match ev_call ev with
  | RequestsPost url hdrs json =>
      (exists user,
          In (Ev (GetUser GITHUB_TOKEN) (RUser user)) tr /\
          url = $"https://api.github.com/repos/" ++ login user ++ $"/"
                  ++ repoName req ++ $"/pages") /\
      hdrs = [($"Authorization", $"Bearer " ++ GITHUB_TOKEN);
              ($"Accept", $"application/vnd.github+json")] /\
      json = PDict [($"source",
                     PDict [($"branch", PStr $"main"); ($"path", PStr $"/")])]
  | RequestsGet url hdrs =>
      (exists user,
          In (Ev (GetUser GITHUB_TOKEN) (RUser user)) tr /\
          url = $"https://api.github.com/repos/" ++ login user ++ $"/"
                  ++ repoName req ++ $"/pages") /\
      hdrs = [($"Authorization", $"Bearer " ++ GITHUB_TOKEN);
              ($"Accept", $"application/vnd.github+json")]
  | _ => True
  end.
Proof.
  intros H Hin.
  invert_run H; in_record Hin; cbn; auto.
  all: repeat split; try reflexivity.
  all: eexists; split; [left; reflexivity | reflexivity].
Qed.

(** X14. The structured errors of the handler carry status 400, 401 or
    500 and no other: when the handler raises an [HTTPException] that
    neither a call nor the JSON decoder raised, its status is one of the
    three. *)
Theorem structured_errors_are_400_401_500 (req : DeployRequest) (w : W)
    (tr : list event) (status : Z) (detail : str) :
  serve GITHUB_TOKEN req w = (Raise (HTTPException status detail), tr) ->
  (forall ev, In ev tr ->
     ev_reply ev <> RRaised (HTTPException status detail)) ->
  (forall c info, In (Ev c (RResponse info)) tr ->
     resp_json info <> Raise (HTTPException status detail)) ->
  In status [400; 401; 500].
Proof.
  intros H Hcalls Hdecoder.
  invert_run H.
  all: try (cbn; auto 10; fail).
  all: try (exfalso;
            match type of Hcalls with
            | forall ev, In ev ?run -> _ =>
                let ev := eval cbn in (last run (Ev (Sleep 0) RDone)) in
                apply (Hcalls ev);
                [ cbn; rewrite ?in_app_iff; cbn; auto 10 | reflexivity ]
            end).
  all: match goal with
       | E : read_html_url ?info = _ |- _ =>
           apply read_html_url_raises in E; destruct E as [E | ->];
           [ exfalso; revert E; eapply Hdecoder;
             cbn; rewrite ?in_app_iff; cbn; auto 10
           | cbn; auto ]
       end.
Qed.

End Further.

(** X13. The start-up stops with a [RuntimeError] exactly when
    [GITHUB_TOKEN] is unset or empty; otherwise the handler is served
    with the value of the variable as it is, which is then not empty. *)
Theorem startup_needs_a_token (env : environ) :
  match load_GITHUB_TOKEN env with
  | Return bound =>
      exists token,
        bound = Some token /\ env $"GITHUB_TOKEN" = Some token /\
        token <> []
  | Raise e =>
      (env $"GITHUB_TOKEN" = None \/ env $"GITHUB_TOKEN" = Some []) /\
      e = RuntimeError "Missing GITHUB_TOKEN environment variable. Please add it to your .env or Render environment."
  end.
Proof.
  unfold load_GITHUB_TOKEN.
  destruct (env $"GITHUB_TOKEN") as [[|c token]|]; cbn.
  - split; [right|]; reflexivity.
  - exists (c :: token). repeat split. discriminate.
  - split; [left|]; reflexivity.
Qed.

(** ** The further properties on concrete runs *)

(** A listed event is in a listed record. *)
Ltac listed := vm_compute; auto 12.

(** X3 on a repository that does not exist yet. *)
Lemma repository_is_created_only_when_absent_witness :
  let run := serve Mock.token Mock.demo Mock.fresh in
  let created :=
    Ev (CreateRepo Mock.octocat $"demo-site" true) (RRepo Mock.demo_repo) in
  In created (snd run) /\
  $"demo-site" = repoName Mock.demo /\
  true = true /\
  exists e after,
    exn_status e = Some 404 /\
    snd run = [Ev (GetUser Mock.token) (RUser Mock.octocat);
               Ev (GetRepo Mock.octocat $"demo-site") (RRaised e);
               created]
              ++ after.
Proof.
  intros run created.
  assert (Hin : In created (snd run)) by listed.
  split; [exact Hin|].
  exact (repository_is_created_only_when_absent Mock.token Mock.demo
           Mock.fresh (fst run) (snd run) _ _ _ _
           (surjective_pairing run) Hin).
Defined.

(** X4 on a repository that holds [index.html]. *)
Lemma content_lookup_follows_the_pause_witness :
  let run := serve Mock.token Mock.demo Mock.existing in
  let looked :=
    Ev (GetContents Mock.demo_repo $"index.html" $"main")
      (RContents (File Mock.old_index)) in
  In looked (snd run) /\
  $"index.html" = $"index.html" /\
  $"main" = $"main" /\
  (exists user,
      In (Ev (GetRepo user (repoName Mock.demo)) (RRepo Mock.demo_repo))
        (snd run) \/
      In (Ev (CreateRepo user (repoName Mock.demo) true)
            (RRepo Mock.demo_repo)) (snd run)) /\
  exists before after,
    snd run = before ++ [Ev (Sleep 2) RDone; looked] ++ after.
Proof.
  intros run looked.
  assert (Hin : In looked (snd run)) by listed.
  split; [exact Hin|].
  exact (content_lookup_follows_the_pause Mock.token Mock.demo Mock.existing
           (fst run) (snd run) _ _ _ _
           (surjective_pairing run) Hin).
Defined.

(** X5 on an [index.html] deleted between the lookup and the update. *)
Lemma vanished_index_is_created_witness :
  let run := serve Mock.token Mock.demo Cases.vanishing in
  let updated :=
    Ev (UpdateFile Mock.demo_repo $"index.html" $"Update index.html"
          $"<h1>Hi</h1>" $"3b18e512dba79e4c" $"main")
      (RRaised Mock.not_found) in
  In updated (snd run) /\
  isinstance_UnknownObjectException Mock.not_found = true /\
  exists answered before after,
    snd run =
      before
      ++ [updated;
          Ev (CreateFile Mock.demo_repo $"index.html" $"Add index.html"
                (html Mock.demo) $"main") answered]
      ++ after.
Proof.
  intros run updated.
  assert (Hin : In updated (snd run)) by listed.
  split; [exact Hin|]. split; [reflexivity|].
  exact (vanished_index_is_created Mock.token Mock.demo Cases.vanishing
           (fst run) (snd run) _ _ _ _ _ _ _
           (surjective_pairing run) Hin eq_refl).
Defined.

(** X6 on a repository lookup refused with 403. *)
Lemma failure_surfaces_witness :
  let run := serve Mock.token Mock.demo Mock.locked in
  let refused :=
    Ev (GetRepo Mock.octocat $"demo-site") (RRaised Mock.forbidden) in
  In refused (snd run) /\
  not_found_signal refused = false /\
  fst run = Raise (HTTPException 400 $"Repo access error: Forbidden").
Proof.
  intros run refused.
  assert (Hin : In refused (snd run)) by listed.
  split; [exact Hin|]. split; [reflexivity|].
  exact (failure_surfaces Mock.token Mock.demo Mock.locked
           (fst run) (snd run) refused Mock.forbidden
           (surjective_pairing run) Hin eq_refl eq_refl
           (fun H : false = true =>
              False_ind _ (Bool.diff_false_true H))).
Defined.

(** X7 on a file creation that fails. *)
Lemma failure_ends_the_run_witness :
  let run := serve Mock.token Mock.demo Mock.read_only in
  let failing :=
    Ev (CreateFile Mock.demo_repo $"index.html" $"Add index.html"
          $"<h1>Hi</h1>" $"main") (RRaised Mock.invalid) in
  In failing (snd run) /\
  not_found_signal failing = false /\
  exists before, snd run = before ++ [failing].
Proof.
  intros run failing.
  assert (Hin : In failing (snd run)) by listed.
  split; [exact Hin|]. split; [reflexivity|].
  exact (failure_ends_the_run Mock.token Mock.demo Mock.read_only
           (fst run) (snd run) failing Mock.invalid
           (surjective_pairing run) Hin eq_refl eq_refl
           (fun H : false = true =>
              False_ind _ (Bool.diff_false_true H))).
Defined.

(** X8 on a Pages configuration that cannot be fetched (404). *)
Lemma pages_fetch_refusal_is_500_witness :
  let run := serve Mock.token Mock.demo Cases.unfetchable in
  let fetched :=
    Ev (RequestsGet (pages_api $"user" $"demo-site") (headers Mock.token))
      (RResponse Cases.pages_missing) in
  In fetched (snd run) /\
  resp_status_code Cases.pages_missing <> 200 /\
  fst run =
    Raise (HTTPException 500
             $"Fetching Pages info failed (404): {'message': 'Not Found'}") /\
  exists before, snd run = before ++ [fetched].
Proof.
  intros run fetched.
  assert (Hin : In fetched (snd run)) by listed.
  assert (Hstatus : resp_status_code Cases.pages_missing <> 200)
    by discriminate.
  split; [exact Hin|]. split; [exact Hstatus|].
  exact (pages_fetch_refusal_is_500 Mock.token Mock.demo Cases.unfetchable
           (fst run) (snd run) _ _ _
           (surjective_pairing run) Hin Hstatus).
Defined.

(** X9 on a Pages configuration whose [html_url] is the empty string. *)
Lemma html_url_decides_the_result_witness :
  let run := serve Mock.token Mock.demo Cases.unbuilt in
  In (Ev (RequestsGet (pages_api $"user" $"demo-site") (headers Mock.token))
        (RResponse Cases.pages_unbuilt)) (snd run) /\
  resp_status_code Cases.pages_unbuilt = 200 /\
  resp_json Cases.pages_unbuilt = Return (PDict [($"html_url", PStr [])]) /\
  fst run = Raise (HTTPException 500 $"No html_url in Pages response").
Proof.
  intros run.
  assert (Hin : In (Ev (RequestsGet (pages_api $"user" $"demo-site")
                          (headers Mock.token))
                      (RResponse Cases.pages_unbuilt)) (snd run)) by listed.
  split; [exact Hin|]. split; [reflexivity|]. split; [reflexivity|].
  exact (html_url_decides_the_result Mock.token Mock.demo Cases.unbuilt
           (fst run) (snd run) _ _ Cases.pages_unbuilt _
           (surjective_pairing run) Hin eq_refl eq_refl).
Defined.

(** X10 on a GET whose body is not JSON. *)
Lemma unusable_pages_body_escapes_witness :
  let run := serve Mock.token Mock.demo Cases.garbled in
  In (Ev (RequestsGet (pages_api $"user" $"demo-site") (headers Mock.token))
        (RResponse Cases.pages_garbled)) (snd run) /\
  resp_status_code Cases.pages_garbled = 200 /\
  (forall body, resp_json Cases.pages_garbled <> Return (PDict body)) /\
  fst run = Raise Cases.decode_error.
Proof.
  intros run.
  assert (Hin : In (Ev (RequestsGet (pages_api $"user" $"demo-site")
                          (headers Mock.token))
                      (RResponse Cases.pages_garbled)) (snd run)) by listed.
  assert (Hbody : forall body,
             resp_json Cases.pages_garbled <> Return (PDict body))
    by (intros body; discriminate).
  split; [exact Hin|]. split; [reflexivity|]. split; [exact Hbody|].
  exact (unusable_pages_body_escapes Mock.token Mock.demo Cases.garbled
           (fst run) (snd run) _ _ Cases.pages_garbled
           (surjective_pairing run) Hin eq_refl Hbody).
Defined.

(** X11 on the run that updates an existing [index.html]. *)
Lemma result_means_published_witness :
  let run := serve Mock.token Mock.demo Mock.existing in
  let v := PDict [($"url", PStr $"https://user.github.io/demo-site/")] in
  run = (Return v, snd run) /\
  exists before user resp info body,
    snd run =
      before
      ++ [Ev (RequestsPost (pages_api (login user) (repoName Mock.demo))
                (headers Mock.token) payload) (RResponse resp);
          Ev (RequestsGet (pages_api (login user) (repoName Mock.demo))
                (headers Mock.token)) (RResponse info)] /\
    In (resp_status_code resp) [201; 204] /\
    resp_status_code info = 200 /\
    resp_json info = Return (PDict body) /\
    truthy (dict_get body $"html_url") = true /\
    v = PDict [($"url", dict_get body $"html_url")].
Proof.
  intros run v.
  assert (Hrun : run = (Return v, snd run)) by (vm_compute; reflexivity).
  split; [exact Hrun|].
  exact (result_means_published Mock.token Mock.demo Mock.existing
           (snd run) v Hrun).
Defined.

(** X12 on the POST of the run that updates an existing [index.html]. *)
Lemma pages_requests_target_the_repository_witness :
  let run := serve Mock.token Mock.demo Mock.existing in
  let enabled :=
    Ev (RequestsPost $"https://api.github.com/repos/user/demo-site/pages"
          [($"Authorization", $"Bearer ghp_example");
           ($"Accept", $"application/vnd.github+json")]
          (PDict [($"source", PDict [($"branch", PStr $"main");
                                     ($"path", PStr $"/")])]))
      (RResponse Mock.pages_created) in
  In enabled (snd run) /\
  match ev_call enabled with
  | RequestsPost url hdrs json =>
      (exists user,
          In (Ev (GetUser Mock.token) (RUser user)) (snd run) /\
          url = $"https://api.github.com/repos/" ++ login user ++ $"/"
                  ++ repoName Mock.demo ++ $"/pages") /\
      hdrs = [($"Authorization", $"Bearer " ++ Mock.token);
              ($"Accept", $"application/vnd.github+json")] /\
      json = PDict [($"source",
                     PDict [($"branch", PStr $"main"); ($"path", PStr $"/")])]
  | _ => False
  end.
Proof.
  intros run enabled.
  assert (Hin : In enabled (snd run)) by listed.
  split; [exact Hin|].
  exact (pages_requests_target_the_repository Mock.token Mock.demo
           Mock.existing (fst run) (snd run) enabled
           (surjective_pairing run) Hin).
Defined.

(** X14 on a repository lookup refused with 403: the handler answers 400. *)
Lemma structured_errors_are_400_401_500_witness :
  let run := serve Mock.token Mock.demo Mock.locked in
  let detail := $"Repo access error: Forbidden" in
  run = (Raise (HTTPException 400 detail), snd run) /\
  In 400 [400; 401; 500].
Proof.
  intros run detail.
  assert (Hrun : run = (Raise (HTTPException 400 detail), snd run))
    by (vm_compute; reflexivity).
  split; [exact Hrun|].
  apply (structured_errors_are_400_401_500 Mock.token Mock.demo Mock.locked
           (snd run) 400 detail Hrun).
  - intros ev Hin.
    change (In ev [Ev (GetUser Mock.token) (RUser Mock.octocat);
                   Ev (GetRepo Mock.octocat $"demo-site")
                     (RRaised Mock.forbidden)]) in Hin.
    destruct Hin as [<- | [<- | []]]; discriminate.
  - intros c info Hin.
    change (In (Ev c (RResponse info))
              [Ev (GetUser Mock.token) (RUser Mock.octocat);
               Ev (GetRepo Mock.octocat $"demo-site")
                 (RRaised Mock.forbidden)]) in Hin.
    destruct Hin as [H | [H | []]]; discriminate H.
Defined.
